(** * Wall: the feed page and its data gateway

    A shallow embedding of [src/app/page.tsx] (the [Home] component: feed
    state, live-insert subscription, file selection, submission) and of
    [src/lib/supabase.js] (the three gateway operations), followed by the
    properties of the feed controller that the specification states.

    Conventions.
    - A JavaScript string is the list of its UTF-16 code units; [length] is
      then [String.prototype.length].
    - Each [useState] cell is a field of [State]; each setter is a function
      on [State].
    - An [async] function is cut at its [await]s: the part that runs up to
      the first [await] returns the gateway call it issues and the
      continuation that is resumed when the call settles.
    - The Supabase client is a collaborator: what it answers is an input of
      the model, a [Response] with the [data] and [error] fields the code
      destructures. *)

From Stdlib Require Import NArith ZArith Decimal DecimalN String Ascii.
From stdpp Require Import base option list gmap.

Local Open Scope N_scope.

(** ** JavaScript strings *)

Definition jsstring : Type := list N.

(** A string literal of the source, code unit by code unit. *)
Fixpoint js (s : string) : jsstring :=
  match s with
  | EmptyString => []
  | String c s' => N_of_ascii c :: js s'
  end.
Arguments js : simpl never.

(** ECMAScript [WhiteSpace] and [LineTerminator] code points, which are
    what [String.prototype.trim] strips. *)
Definition isWhiteSpace (c : N) : bool :=
  (9 <=? c) && (c <=? 13)
  || (c =? 32) || (c =? 160) || (c =? 5760)
  || (8192 <=? c) && (c <=? 8202)
  || (c =? 8232) || (c =? 8233) || (c =? 8239) || (c =? 8287)
  || (c =? 12288) || (c =? 65279).

Fixpoint trimStart (s : jsstring) : jsstring :=
  match s with
  | [] => []
  | c :: s' => if isWhiteSpace c then trimStart s' else s
  end.

Definition trimEnd (s : jsstring) : jsstring := rev (trimStart (rev s)).

Definition trim (s : jsstring) : jsstring := trimEnd (trimStart s).

(** Truthiness of a string value: only the empty string is falsy. *)
Definition truthy (s : jsstring) : bool :=
  match s with
  | [] => false
  | _ :: _ => true
  end.

(** Truthiness of a [string | null]: [null] and the empty string are falsy. *)
Definition truthy_or_null (v : option jsstring) : bool :=
  match v with
  | Some s => truthy s
  | None => false
  end.

(** [!!v] for a nullable object: only [null] is falsy. *)
Definition present {A : Type} (v : option A) : bool :=
  match v with
  | Some _ => true
  | None => false
  end.

(** [s.startsWith(p)] *)
Fixpoint startsWith (p s : jsstring) : bool :=
  match p, s with
  | [], _ => true
  | _ :: _, [] => false
  | a :: p', b :: s' => (a =? b) && startsWith p' s'
  end.

(** Relational comparison of two strings, [a < b] in JavaScript:
    lexicographic on code units. *)
Fixpoint js_ltb (a b : jsstring) : bool :=
  match a, b with
  | _, [] => false
  | [], _ :: _ => true
  | x :: a', y :: b' => (x <? y) || (x =? y) && js_ltb a' b'
  end.

(** [`${n}`] for a non-negative integer below 10^21: its decimal digits. *)
Fixpoint digits (u : Decimal.uint) : jsstring :=
  match u with
  | Nil => []
  | D0 u' => 48 :: digits u'
  | D1 u' => 49 :: digits u'
  | D2 u' => 50 :: digits u'
  | D3 u' => 51 :: digits u'
  | D4 u' => 52 :: digits u'
  | D5 u' => 53 :: digits u'
  | D6 u' => 54 :: digits u'
  | D7 u' => 55 :: digits u'
  | D8 u' => 56 :: digits u'
  | D9 u' => 57 :: digits u'
  end.

Definition Number_toString (n : N) : jsstring := digits (N.to_uint n).

(** ** Data *)

(** [interface Post] of page.tsx. [id] is the store's integer key;
    [created_at] is the timestamp as the store serialises it. *)
Module Post.
Record t : Type := mk {
  id : Z;
  message : jsstring;
  image_url : option jsstring;
  created_at : jsstring
}.
End Post.

(** The parts of a DOM [File] the code reads: [name] (handleSubmit) and
    [type] (handleFileChange); [bytes] is the content that is uploaded. *)
Module File.
Record t : Type := mk {
  name : jsstring;
  type : jsstring;
  bytes : list N
}.
End File.

(** The error object of the Supabase client; [message] may be missing. *)
Record SupabaseError : Type := { err_message : option jsstring }.

(** What a Supabase call resolves to: [{ data, error }]. *)
Module Response.
Record t (D : Type) : Type := mk {
  data : option D;
  error : option SupabaseError
}.
Arguments mk {D} _ _.
Arguments data {D} _.
Arguments error {D} _.
End Response.

(** What a gateway operation returns: [{ data }] or [{ error }]. The test
    ["error" in result] is a match on [WithError]. *)
Inductive Result (D : Type) : Type :=
  | WithData (d : D)
  | WithError (msg : jsstring).
Arguments WithData {D} _.
Arguments WithError {D} _.

Definition has_error {D} (r : Result D) : bool :=
  match r with
  | WithError _ => true
  | WithData _ => false
  end.

(** How an awaited promise settles. *)
Inductive Settled (A : Type) : Type :=
  | Fulfilled (a : A)
  | Rejected.
Arguments Fulfilled {A} _.
Arguments Rejected {A}.

(** ** The Supabase client (collaborator interface)

    The four client calls the repository makes, each over the state of the
    service it talks to. *)

Record InsertRow : Type := { row_message : jsstring; row_image_url : option jsstring }.

Record UploadOptions : Type := { cacheControl : jsstring; upsert : bool }.

Record StoredObject : Type := { path : jsstring }.

(** [supabase.from("posts")]: the post table. *)
Class Postgrest (B : Type) : Type := {
  (** [.select("*").order("created_at", { ascending: false })] *)
  posts_select_desc : B -> Response.t (list Post.t);
  (** [.insert(rows).select()] *)
  posts_insert : list InsertRow -> B -> Response.t (list Post.t) * B
}.

(** [supabase.storage.from("posts")]: the object bucket. *)
Class Storage (S : Type) : Type := {
  (** [.upload(path, file, options)] *)
  storage_upload : jsstring -> File.t -> UploadOptions -> S -> Response.t StoredObject * S;
  (** [.getPublicUrl(path).data.publicUrl] *)
  storage_publicUrl : jsstring -> jsstring
}.

(** ** The data gateway (src/lib/supabase.js) *)

(** [error.message || "An error occurred"] *)
Definition message_or_default (e : SupabaseError) : jsstring :=
  match err_message e with
  | Some m => if truthy m then m else js "An error occurred"
  | None => js "An error occurred"
  end.

Definition handleSupabaseError {D} (e : SupabaseError) : Result D :=
  WithError (message_or_default e).

Record UploadData : Type := { up_path : jsstring; publicURL : jsstring }.

Section Gateway.
Context {B : Type} {db : Postgrest B} {S : Type} {storage : Storage S}.

Definition fetchPosts (b : B) : Settled (Result (option (list Post.t))) :=
  let r := posts_select_desc b in
  match Response.error r with
  | Some e => Fulfilled (handleSupabaseError e)
  | None => Fulfilled (WithData (Response.data r))
  end.

Definition createPost (message : jsstring) (imageUrl : option jsstring) (b : B)
  : Settled (Result (option (list Post.t))) * B :=
  let '(r, b') :=
    posts_insert [ {| row_message := message; row_image_url := imageUrl |} ] b in
  match Response.error r with
  | Some e => (Fulfilled (handleSupabaseError e), b')
  | None => (Fulfilled (WithData (Response.data r)), b')
  end.

(** With neither [error] nor [data], reading [data.path] throws and the
    promise is rejected. *)
Definition uploadImage (file : File.t) (fileName : jsstring) (s : S)
  : Settled (Result UploadData) * S :=
  let '(r, s') :=
    storage_upload fileName file {| cacheControl := js "3600"; upsert := false |} s in
  match Response.error r with
  | Some e => (Fulfilled (handleSupabaseError e), s')
  | None =>
      let publicURL := storage_publicUrl fileName in
      match Response.data r with
      | Some d => (Fulfilled (WithData {| up_path := path d; publicURL := publicURL |}), s')
      | None => (Rejected, s')
      end
  end.
End Gateway.

(** ** The feed controller (src/app/page.tsx, [Home]) *)

Definition MAX_CHARACTERS : nat := 280.

(** The six [useState] cells. *)
Record State : Type := mkState {
  posts : list Post.t;
  message : jsstring;
  isSubmitting : bool;
  selectedFile : option File.t;
  filePreview : option jsstring;
  error : option jsstring
}.

(** The state of the first render. *)
Definition initial : State :=
  {| posts := []; message := []; isSubmitting := false;
     selectedFile := None; filePreview := None; error := None |}.

Definition setPosts (f : list Post.t -> list Post.t) (st : State) : State :=
  {| posts := f (posts st); message := message st; isSubmitting := isSubmitting st;
     selectedFile := selectedFile st; filePreview := filePreview st; error := error st |}.

Definition setMessage (v : jsstring) (st : State) : State :=
  {| posts := posts st; message := v; isSubmitting := isSubmitting st;
     selectedFile := selectedFile st; filePreview := filePreview st; error := error st |}.

Definition setIsSubmitting (v : bool) (st : State) : State :=
  {| posts := posts st; message := message st; isSubmitting := v;
     selectedFile := selectedFile st; filePreview := filePreview st; error := error st |}.

Definition setSelectedFile (v : option File.t) (st : State) : State :=
  {| posts := posts st; message := message st; isSubmitting := isSubmitting st;
     selectedFile := v; filePreview := filePreview st; error := error st |}.

Definition setFilePreview (v : option jsstring) (st : State) : State :=
  {| posts := posts st; message := message st; isSubmitting := isSubmitting st;
     selectedFile := selectedFile st; filePreview := v; error := error st |}.

Definition setError (v : option jsstring) (st : State) : State :=
  {| posts := posts st; message := message st; isSubmitting := isSubmitting st;
     selectedFile := selectedFile st; filePreview := filePreview st; error := v |}.

(** The draft: pending text, selected file, derived preview. *)
Definition draft (st : State) : jsstring * option File.t * option jsstring :=
  (message st, selectedFile st, filePreview st).

Definition load_failed : jsstring := js "Failed to load posts. Please refresh the page.".
Definition upload_failed : jsstring := js "Failed to upload image. Please try again.".
Definition create_failed : jsstring := js "Failed to create post. Please try again.".

(** *** Startup: [fetchInitialPosts] once its query has resolved.
    An array is truthy even when empty, so [if (data)] tests for non-null. *)
Definition fetchInitialPosts (r : Response.t (list Post.t)) (st : State) : State :=
  let st1 :=
    match Response.data r with
    | Some d => setPosts (fun _ => d) st
    | None => st
    end in
  match Response.error r with
  | Some _ => setError (Some load_failed) st1
  | None => st1
  end.

(** *** Live channel: the INSERT callback, [payload.new] being [p]. *)
Definition onInsert (p : Post.t) (st : State) : State :=
  setPosts (fun currentPosts => p :: currentPosts) st.

(** *** File selection. The second component is the file handed to
    [reader.readAsDataURL], when a reader is started. *)
Definition handleFileChange (file : option File.t) (st : State) : State * option File.t :=
  match file with
  | None => (setFilePreview None (setSelectedFile None st), None)
  | Some f =>
      let st1 := setSelectedFile (Some f) st in
      if startsWith (js "image/") (File.type f) then (st1, Some f) else (st1, None)
  end.

(** [reader.onloadend]; [result] is [Some] when [reader.result] is a string. *)
Definition onloadend (result : option jsstring) (st : State) : State :=
  match result with
  | Some s => setFilePreview (Some s) st
  | None => st
  end.

(** The [onClick] of the button over the preview. *)
Definition clearPreview (st : State) : State :=
  setSelectedFile None (setFilePreview None st).

(** The [onChange] of the textarea. *)
Definition onChange (v : jsstring) (st : State) : State :=
  let st1 := setMessage v st in
  if truthy_or_null (error st) then setError None st1 else st1.

(** The [disabled] attribute of the Share button. *)
Definition submit_disabled (st : State) : bool :=
  isSubmitting st
  || (negb (truthy (trim (message st))) && negb (present (selectedFile st)))
  || (MAX_CHARACTERS <? length (message st))%nat.

(** The countdown shown next to the button. *)
Definition remaining (st : State) : Z :=
  (Z.of_nat MAX_CHARACTERS - Z.of_nat (length (message st)))%Z.

(** *** Submission *)

(** The calls [handleSubmit] makes on the gateway. *)
Inductive Call : Type :=
  | CallUploadImage (file : File.t) (fileName : jsstring)
  | CallCreatePost (message : jsstring) (imageUrl : option jsstring).

(** Where a run of [handleSubmit] is suspended. The closure keeps the
    [message] of the render in which the handler was invoked. *)
Inductive Pending : Type :=
  | AwaitUpload (message : jsstring)
  | AwaitCreate.

(** [`${Date.now()}-${selectedFile.name}`] *)
Definition fileName (now : N) (f : File.t) : jsstring :=
  Number_toString now ++ js "-" ++ File.name f.

(** The [finally] block. *)
Definition finally (st : State) : State := setIsSubmitting false st.

(** From the call of [handleSubmit] to its first [await] (or its return);
    [now] is what [Date.now()] reads. *)
Definition handleSubmit (now : N) (st : State) : State * option (Call * Pending) :=
  if negb (truthy (trim (message st))) && negb (present (selectedFile st))
  then (st, None)
  else if (MAX_CHARACTERS <? length (message st))%nat
  then (st, None)
  else
    let st1 := setError None (setIsSubmitting true st) in
    match selectedFile st with
    | Some f => (st1, Some (CallUploadImage f (fileName now f), AwaitUpload (message st)))
    | None => (st1, Some (CallCreatePost (message st) None, AwaitCreate))
    end.

(** From the settlement of [uploadImage] to the next [await] or the end. *)
Definition resumeUpload (message : jsstring) (o : Settled (Result UploadData)) (st : State)
  : State * option (Call * Pending) :=
  match o with
  | Fulfilled (WithError _) => (finally (setError (Some upload_failed) st), None)
  | Fulfilled (WithData d) =>
      (st, Some (CallCreatePost message (Some (publicURL d)), AwaitCreate))
  | Rejected => (finally (setError (Some create_failed) st), None)
  end.

(** From the settlement of [createPost] to the end. The value it resolves
    to is not inspected. *)
Definition resumeCreate (o : Settled (Result (option (list Post.t)))) (st : State) : State :=
  match o with
  | Fulfilled _ => finally (setFilePreview None (setSelectedFile None (setMessage [] st)))
  | Rejected => finally (setError (Some create_failed) st)
  end.

(** A whole submission with nothing else happening in between: [up] and
    [cr] are what the two gateway calls settle to, if they are made. The
    second component lists the gateway calls made, in order. *)
Definition submit (now : N) (up : Settled (Result UploadData))
    (cr : Settled (Result (option (list Post.t)))) (st : State) : State * list Call :=
  match handleSubmit now st with
  | (st1, None) => (st1, [])
  | (st1, Some (c, AwaitCreate)) => (resumeCreate cr st1, [c])
  | (st1, Some (c, AwaitUpload m)) =>
      match resumeUpload m up st1 with
      | (st2, None) => (st2, [c])
      | (st2, Some (c', _)) => (resumeCreate cr st2, [c; c'])
      end
  end.

(** ** The event loop

    Everything that can happen to a mounted [Home]: its handlers are
    invoked, its promises settle, the live channel notifies. *)
Inductive Event : Type :=
  | FetchResolved (r : Response.t (list Post.t))
  | InsertNotified (p : Post.t)
  | Unmounted
  | FileChanged (file : option File.t)
  | ReaderLoadEnd (result : option jsstring)
  | PreviewCleared
  | MessageChanged (v : jsstring)
  | SubmitTriggered (now : N)
  | UploadSettled (o : Settled (Result UploadData))
  | CreateSettled (o : Settled (Result (option (list Post.t)))).

Record Config : Type := mkConfig {
  ui : State;
  fetching : bool;            (* the startup query has not resolved yet *)
  subscribed : bool;          (* the channel has not been removed *)
  readers : nat;              (* FileReaders started and not finished *)
  inflight : list Pending;    (* suspended runs of handleSubmit, oldest first *)
  calls : list Call           (* gateway calls made so far, oldest first *)
}.

(** After the effect of the first render: one query sent, channel open. *)
Definition mounted : Config :=
  {| ui := initial; fetching := true; subscribed := true; readers := 0;
     inflight := []; calls := [] |}.

Definition with_ui (st : State) (c : Config) : Config :=
  {| ui := st; fetching := fetching c; subscribed := subscribed c; readers := readers c;
     inflight := inflight c; calls := calls c |}.

(** Removes the oldest run suspended on [uploadImage]; returns its closure. *)
Fixpoint take_upload (l : list Pending) : option (jsstring * list Pending) :=
  match l with
  | [] => None
  | AwaitUpload m :: l' => Some (m, l')
  | AwaitCreate :: l' =>
      match take_upload l' with
      | Some (m, rest) => Some (m, AwaitCreate :: rest)
      | None => None
      end
  end.

(** Removes the oldest run suspended on [createPost]. *)
Fixpoint take_create (l : list Pending) : option (list Pending) :=
  match l with
  | [] => None
  | AwaitCreate :: l' => Some l'
  | AwaitUpload m :: l' =>
      match take_create l' with
      | Some rest => Some (AwaitUpload m :: rest)
      | None => None
      end
  end.

(** Records what a piece of [handleSubmit] did: the new state and, if it
    stopped at an [await], the call made and the suspended run. *)
Definition suspend (r : State * option (Call * Pending)) (rest : list Pending) (c : Config)
  : Config :=
  match r with
  | (st, None) =>
      {| ui := st; fetching := fetching c; subscribed := subscribed c;
         readers := readers c; inflight := rest; calls := calls c |}
  | (st, Some (call, k)) =>
      {| ui := st; fetching := fetching c; subscribed := subscribed c;
         readers := readers c; inflight := rest ++ [k]; calls := calls c ++ [call] |}
  end.

Definition step (c : Config) (e : Event) : Config :=
  match e with
  | FetchResolved r =>
      if fetching c then
        {| ui := fetchInitialPosts r (ui c); fetching := false; subscribed := subscribed c;
           readers := readers c; inflight := inflight c; calls := calls c |}
      else c
  | InsertNotified p =>
      if subscribed c then with_ui (onInsert p (ui c)) c else c
  | Unmounted =>
      {| ui := ui c; fetching := fetching c; subscribed := false;
         readers := readers c; inflight := inflight c; calls := calls c |}
  | FileChanged file =>
      let '(st, started) := handleFileChange file (ui c) in
      {| ui := st; fetching := fetching c; subscribed := subscribed c;
         readers := (if present started then S (readers c) else readers c);
         inflight := inflight c; calls := calls c |}
  | ReaderLoadEnd result =>
      match readers c with
      | O => c
      | S n =>
          {| ui := onloadend result (ui c); fetching := fetching c;
             subscribed := subscribed c; readers := n;
             inflight := inflight c; calls := calls c |}
      end
  | PreviewCleared => with_ui (clearPreview (ui c)) c
  | MessageChanged v => with_ui (onChange v (ui c)) c
  | SubmitTriggered now => suspend (handleSubmit now (ui c)) (inflight c) c
  | UploadSettled o =>
      match take_upload (inflight c) with
      | Some (m, rest) => suspend (resumeUpload m o (ui c)) rest c
      | None => c
      end
  | CreateSettled o =>
      match take_create (inflight c) with
      | Some rest => suspend (resumeCreate o (ui c), None) rest c
      | None => c
      end
  end.

Definition run (c : Config) (es : list Event) : Config := foldl step c es.

(** What the rendered controls let through: the textarea and the file input
    carry [disabled={isSubmitting}], the clear button is rendered only over
    a preview and carries the same attribute, and the form is submitted by
    the Share button, which carries [submit_disabled]. *)
Definition enabled (st : State) (e : Event) : bool :=
  match e with
  | MessageChanged _ | FileChanged _ => negb (isSubmitting st)
  | PreviewCleared => truthy_or_null (filePreview st) && negb (isSubmitting st)
  | SubmitTriggered _ => negb (submit_disabled st)
  | _ => true
  end.

Definition ui_step (c : Config) (e : Event) : Config :=
  if enabled (ui c) e then step c e else c.

Definition ui_run (c : Config) (es : list Event) : Config := foldl ui_step c es.

(** ** Reference collaborators *)

Definition duplicate : SupabaseError :=
  {| err_message := Some (js "The resource already exists") |}.

(** Modelled from the spec: the blob store behind
    [supabase.storage.from("posts")], a service outside the repository.
    It is an "object-put keyed by a caller-supplied name" in which a
    "conflict on existing name is an error"; with [upsert] set the put
    replaces the object instead. The bucket is the map from object names
    to contents. *)
Definition bucket_upload (name : jsstring) (file : File.t) (opts : UploadOptions)
    (b : gmap jsstring File.t) : Response.t StoredObject * gmap jsstring File.t :=
  match b !! name with
  | Some _ =>
      if upsert opts
      then (Response.mk (Some {| path := name |}) None, <[name := file]> b)
      else (Response.mk None (Some duplicate), b)
  | None => (Response.mk (Some {| path := name |}) None, <[name := file]> b)
  end.

(** Modelled from the spec: the storage client over that bucket. Its put
    is [bucket_upload]; how the client renders the public address of an
    object name ([getPublicUrl], which is outside the repository and may
    escape the name) is the parameter [publicUrl]. *)
Definition bucket_storage (publicUrl : jsstring -> jsstring)
  : Storage (gmap jsstring File.t) :=
  {| storage_upload := bucket_upload; storage_publicUrl := publicUrl |}.

(** A post table that cannot be reached: every call answers with an error. *)
Definition unreachable : SupabaseError :=
  {| err_message := Some (js "TypeError: Failed to fetch") |}.

Definition offline : Postgrest unit :=
  {| posts_select_desc := fun _ => Response.mk None (Some unreachable);
     posts_insert := fun _ b => (Response.mk None (Some unreachable), b) |}.

(** ** Properties of the feed *)

(** [a.created_at > b.created_at] *)
Definition newer (a b : Post.t) : bool :=
  js_ltb (Post.created_at b) (Post.created_at a).

(** Newest first: no post is followed by a newer one. *)
Fixpoint newest_first (l : list Post.t) : bool :=
  match l with
  | [] => true
  | p :: l' => forallb (fun q => negb (newer q p)) l' && newest_first l'
  end.

(** The same, as the pairs of positions of the feed. *)
Definition descending (l : list Post.t) : Prop :=
  forall (i j : nat) (a b : Post.t),
    (i < j)%nat -> l !! i = Some b -> l !! j = Some a -> newer a b = false.

Definition ids (l : list Post.t) : list Z := map Post.id l.

(** The posts notified by a sequence of events, in the order of delivery. *)
Definition notified (es : list Event) : list Post.t :=
  omap (fun e => match e with InsertNotified p => Some p | _ => None end) es.

Definition is_fetch (e : Event) : bool :=
  match e with
  | FetchResolved _ => true
  | _ => false
  end.

Definition is_unmount (e : Event) : bool :=
  match e with
  | Unmounted => true
  | _ => false
  end.

(** The two guards at the top of [handleSubmit], as one test. *)
Definition rejected (st : State) : bool :=
  negb (truthy (trim (message st))) && negb (present (selectedFile st))
  || (MAX_CHARACTERS <? length (message st))%nat.

(** ** Concrete inputs *)

Definition blank_draft : Config :=
  with_ui (setMessage (js "  ") initial) mounted.

Definition photo : File.t :=
  {| File.name := js "cat.png"; File.type := js "image/png"; File.bytes := [137; 80; 78; 71] |}.

Definition notes : File.t :=
  {| File.name := js "notes.txt"; File.type := js "text/plain"; File.bytes := [104; 105] |}.

Definition hello_draft : State := setMessage (js "hello") initial.

(** "hello" typed, [photo] chosen and its preview loaded. *)
Definition photo_draft : State :=
  setFilePreview (Some (js "data:image/png;base64,iVBORw=="))
    (setSelectedFile (Some photo) hello_draft).

Definition is_insert (e : Event) : bool :=
  match e with
  | InsertNotified _ => true
  | _ => false
  end.

Definition post1 : Post.t :=
  {| Post.id := 1; Post.message := js "a"; Post.image_url := None;
     Post.created_at := js "2025-06-01T10:00:00+00:00" |}.

Definition post2 : Post.t :=
  {| Post.id := 2; Post.message := js "b"; Post.image_url := None;
     Post.created_at := js "2025-06-01T10:00:05+00:00" |}.

Definition post5 : Post.t :=
  {| Post.id := 5; Post.message := js "hello"; Post.image_url := None;
     Post.created_at := js "2025-06-01T10:07:00+00:00" |}.

(** A successful answer of the post table, and a failed one. *)
Definition answered (rows : list Post.t) : Response.t (list Post.t) :=
  Response.mk (Some rows) None.

Definition failed : Response.t (list Post.t) :=
  Response.mk None (Some unreachable).

(** The page after the startup query has answered with two posts. *)
Definition loaded : Config :=
  run mounted [FetchResolved (answered [post2; post1])].

(** "hello" is typed and submitted, the write succeeds with row 5, and
    the live channel then notifies row 5. *)
Definition hello_session : list Event :=
  [ MessageChanged (js "hello");
    SubmitTriggered 1748772420000;
    CreateSettled (Fulfilled (WithData (Some [post5])));
    InsertNotified post5 ].

(** The events whose handlers write [error]. *)
Definition writes_error (e : Event) : bool :=
  match e with
  | FetchResolved _ | MessageChanged _ | SubmitTriggered _
  | UploadSettled _ | CreateSettled _ => true
  | _ => false
  end.

Definition project_url : jsstring := js "https://wall.supabase.co".

(** An address rendering for the examples: the name is appended as it is. *)
Definition raw_address (name : jsstring) : jsstring :=
  project_url ++ js "/storage/v1/object/public/posts/" ++ name.

(** A bucket that already holds an object under the name the submission
    of [photo_draft] at time 1748772420000 derives. *)
Definition taken : gmap jsstring File.t :=
  {[ fileName 1748772420000 photo := notes ]}.

(** [isSubmitting] tells whether a run of [handleSubmit] is suspended, and
    there is never more than one. *)
Definition one_in_flight (c : Config) : Prop :=
  match inflight c with
  | [] => isSubmitting (ui c) = false
  | [_] => isSubmitting (ui c) = true
  | _ :: _ :: _ => False
  end.

(** ** The earlier revision of the page

    The same component before the [error] cell was added: failures are
    written to the console only, the textarea, the file input and the clear
    button are never disabled, and the Share button does not look at the
    length of the message. *)
Module Legacy.

Record State : Type := mkState {
  posts : list Post.t;
  message : jsstring;
  isSubmitting : bool;
  selectedFile : option File.t;
  filePreview : option jsstring
}.

Definition initial : State :=
  {| posts := []; message := []; isSubmitting := false;
     selectedFile := None; filePreview := None |}.

Definition setPosts (f : list Post.t -> list Post.t) (st : State) : State :=
  {| posts := f (posts st); message := message st; isSubmitting := isSubmitting st;
     selectedFile := selectedFile st; filePreview := filePreview st |}.

Definition setMessage (v : jsstring) (st : State) : State :=
  {| posts := posts st; message := v; isSubmitting := isSubmitting st;
     selectedFile := selectedFile st; filePreview := filePreview st |}.

Definition setIsSubmitting (v : bool) (st : State) : State :=
  {| posts := posts st; message := message st; isSubmitting := v;
     selectedFile := selectedFile st; filePreview := filePreview st |}.

Definition setSelectedFile (v : option File.t) (st : State) : State :=
  {| posts := posts st; message := message st; isSubmitting := isSubmitting st;
     selectedFile := v; filePreview := filePreview st |}.

Definition setFilePreview (v : option jsstring) (st : State) : State :=
  {| posts := posts st; message := message st; isSubmitting := isSubmitting st;
     selectedFile := selectedFile st; filePreview := v |}.

(** [if (error) console.error(...)] leaves the state alone. *)
Definition fetchInitialPosts (r : Response.t (list Post.t)) (st : State) : State :=
  match Response.data r with
  | Some d => setPosts (fun _ => d) st
  | None => st
  end.

Definition onInsert (p : Post.t) (st : State) : State :=
  setPosts (fun currentPosts => p :: currentPosts) st.

Definition handleFileChange (file : option File.t) (st : State) : State * option File.t :=
  match file with
  | None => (setFilePreview None (setSelectedFile None st), None)
  | Some f =>
      let st1 := setSelectedFile (Some f) st in
      if startsWith (js "image/") (File.type f) then (st1, Some f) else (st1, None)
  end.

Definition onloadend (result : option jsstring) (st : State) : State :=
  match result with
  | Some s => setFilePreview (Some s) st
  | None => st
  end.

Definition clearPreview (st : State) : State :=
  setSelectedFile None (setFilePreview None st).

Definition onChange (v : jsstring) (st : State) : State := setMessage v st.

(** [disabled={isSubmitting || (!message.trim() && !selectedFile)}] *)
Definition submit_disabled (st : State) : bool :=
  isSubmitting st
  || (negb (truthy (trim (message st))) && negb (present (selectedFile st))).

Definition finally (st : State) : State := setIsSubmitting false st.

Definition handleSubmit (now : N) (st : State) : State * option (Call * Pending) :=
  if negb (truthy (trim (message st))) && negb (present (selectedFile st))
  then (st, None)
  else if (MAX_CHARACTERS <? length (message st))%nat
  then (st, None)
  else
    let st1 := setIsSubmitting true st in
    match selectedFile st with
    | Some f => (st1, Some (CallUploadImage f (fileName now f), AwaitUpload (message st)))
    | None => (st1, Some (CallCreatePost (message st) None, AwaitCreate))
    end.

Definition resumeUpload (message : jsstring) (o : Settled (Result UploadData)) (st : State)
  : State * option (Call * Pending) :=
  match o with
  | Fulfilled (WithError _) => (finally st, None)
  | Fulfilled (WithData d) =>
      (st, Some (CallCreatePost message (Some (publicURL d)), AwaitCreate))
  | Rejected => (finally st, None)
  end.

Definition resumeCreate (o : Settled (Result (option (list Post.t)))) (st : State) : State :=
  match o with
  | Fulfilled _ => finally (setFilePreview None (setSelectedFile None (setMessage [] st)))
  | Rejected => finally st
  end.

Definition submit (now : N) (up : Settled (Result UploadData))
    (cr : Settled (Result (option (list Post.t)))) (st : State) : State * list Call :=
  match handleSubmit now st with
  | (st1, None) => (st1, [])
  | (st1, Some (c, AwaitCreate)) => (resumeCreate cr st1, [c])
  | (st1, Some (c, AwaitUpload m)) =>
      match resumeUpload m up st1 with
      | (st2, None) => (st2, [c])
      | (st2, Some (c', _)) => (resumeCreate cr st2, [c; c'])
      end
  end.

Record Config : Type := mkConfig {
  ui : State;
  fetching : bool;
  subscribed : bool;
  readers : nat;
  inflight : list Pending;
  calls : list Call
}.

Definition mounted : Config :=
  {| ui := initial; fetching := true; subscribed := true; readers := 0;
     inflight := []; calls := [] |}.

Definition with_ui (st : State) (c : Config) : Config :=
  {| ui := st; fetching := fetching c; subscribed := subscribed c; readers := readers c;
     inflight := inflight c; calls := calls c |}.

Definition suspend (r : State * option (Call * Pending)) (rest : list Pending) (c : Config)
  : Config :=
  match r with
  | (st, None) =>
      {| ui := st; fetching := fetching c; subscribed := subscribed c;
         readers := readers c; inflight := rest; calls := calls c |}
  | (st, Some (call, k)) =>
      {| ui := st; fetching := fetching c; subscribed := subscribed c;
         readers := readers c; inflight := rest ++ [k]; calls := calls c ++ [call] |}
  end.

Definition step (c : Config) (e : Event) : Config :=
  match e with
  | FetchResolved r =>
      if fetching c then
        {| ui := fetchInitialPosts r (ui c); fetching := false; subscribed := subscribed c;
           readers := readers c; inflight := inflight c; calls := calls c |}
      else c
  | InsertNotified p =>
      if subscribed c then with_ui (onInsert p (ui c)) c else c
  | Unmounted =>
      {| ui := ui c; fetching := fetching c; subscribed := false;
         readers := readers c; inflight := inflight c; calls := calls c |}
  | FileChanged file =>
      let '(st, started) := handleFileChange file (ui c) in
      {| ui := st; fetching := fetching c; subscribed := subscribed c;
         readers := (if present started then S (readers c) else readers c);
         inflight := inflight c; calls := calls c |}
  | ReaderLoadEnd result =>
      match readers c with
      | O => c
      | S n =>
          {| ui := onloadend result (ui c); fetching := fetching c;
             subscribed := subscribed c; readers := n;
             inflight := inflight c; calls := calls c |}
      end
  | PreviewCleared => with_ui (clearPreview (ui c)) c
  | MessageChanged v => with_ui (onChange v (ui c)) c
  | SubmitTriggered now => suspend (handleSubmit now (ui c)) (inflight c) c
  | UploadSettled o =>
      match take_upload (inflight c) with
      | Some (m, rest) => suspend (resumeUpload m o (ui c)) rest c
      | None => c
      end
  | CreateSettled o =>
      match take_create (inflight c) with
      | Some rest => suspend (resumeCreate o (ui c), None) rest c
      | None => c
      end
  end.

Definition run (c : Config) (es : list Event) : Config := foldl step c es.

(** What the rendered controls of this revision let through. *)
Definition enabled (st : State) (e : Event) : bool :=
  match e with
  | PreviewCleared => truthy_or_null (filePreview st)
  | SubmitTriggered _ => negb (submit_disabled st)
  | _ => true
  end.

Definition ui_step (c : Config) (e : Event) : Config :=
  if enabled (ui c) e then step c e else c.

Definition ui_run (c : Config) (es : list Event) : Config := foldl ui_step c es.

End Legacy.

(** Forgetting the [error] cell. *)
Definition forget (st : State) : Legacy.State :=
  {| Legacy.posts := posts st; Legacy.message := message st;
     Legacy.isSubmitting := isSubmitting st; Legacy.selectedFile := selectedFile st;
     Legacy.filePreview := filePreview st |}.

Definition forget_config (c : Config) : Legacy.Config :=
  {| Legacy.ui := forget (ui c); Legacy.fetching := fetching c;
     Legacy.subscribed := subscribed c; Legacy.readers := readers c;
     Legacy.inflight := inflight c; Legacy.calls := calls c |}.

(** The values the page ever writes to [error]. *)
Definition fixed_error (v : option jsstring) : Prop :=
  v = None \/ v = Some load_failed \/ v = Some upload_failed \/ v = Some create_failed.

(** At most one run of [handleSubmit] is suspended, [isSubmitting] tells
    whether one is, and the message its closure holds is the one shown. *)
Definition closure_current (c : Config) : Prop :=
  match inflight c with
  | [] => isSubmitting (ui c) = false
  | [AwaitUpload m] => isSubmitting (ui c) = true /\ m = message (ui c)
  | [AwaitCreate] => isSubmitting (ui c) = true
  | _ :: _ :: _ => False
  end.

(** An image chosen and nothing typed. *)
Definition image_only : State := setSelectedFile (Some photo) initial.

(** 281 code units typed. *)
Definition too_long : State := setMessage (replicate 281 97) initial.

(** Whether an awaited call failed, by returning [{ error }] or by throwing. *)
Definition has_error_or_thrown {D : Type} (o : Settled (Result D)) : bool :=
  match o with
  | Fulfilled r => has_error r
  | Rejected => true
  end.

(** A file is chosen and the submission is started at once. *)
Definition photo_submitted : list Event :=
  [ MessageChanged (js "hello"); FileChanged (Some photo); SubmitTriggered 7 ].

(** The earlier page with 281 code units typed, and with "hello" typed. *)
Definition legacy_too_long : Legacy.Config :=
  Legacy.with_ui (Legacy.setMessage (replicate 281 97) Legacy.initial) Legacy.mounted.

Definition legacy_hello : Legacy.Config :=
  Legacy.with_ui (Legacy.setMessage (js "hello") Legacy.initial) Legacy.mounted.

(** * Proofs *)

(** ** Lemmas on strings *)

Section Strings.
Implicit Types s p : jsstring.

Lemma trimStart_nil_iff s : trimStart s = [] <-> forallb isWhiteSpace s = true.
Proof.
  induction s as [|c s IH]; simpl; [done|].
  destruct (isWhiteSpace c); simpl; [exact IH|]. split; discriminate.
Qed.

Lemma trimStart_head s c s' : trimStart s = c :: s' -> isWhiteSpace c = false.
Proof.
  induction s as [|d s IH]; simpl; [discriminate|].
  destruct (isWhiteSpace d) eqn:Hd; [exact IH|].
  intros [= <- _]. exact Hd.
Qed.

Lemma forallb_rev (f : N -> bool) s : forallb f (rev s) = forallb f s.
Proof.
  induction s as [|c s IH]; simpl; [done|].
  rewrite forallb_app, IH. simpl. destruct (f c), (forallb f s); done.
Qed.

(** [!s.trim()] holds exactly of the strings made of white space only. *)
Lemma trim_falsy_iff s : truthy (trim s) = false <-> forallb isWhiteSpace s = true.
Proof.
  unfold trim, trimEnd. split.
  - intros H.
    assert (Hr : trimStart (rev (trimStart s)) = []).
    { destruct (trimStart (rev (trimStart s))) as [|c r] eqn:E; [done|].
      simpl in H. destruct (rev r); discriminate. }
    apply trimStart_nil_iff in Hr. rewrite forallb_rev in Hr.
    destruct (trimStart s) as [|c r] eqn:E.
    + by apply trimStart_nil_iff.
    + apply trimStart_head in E. simpl in Hr. rewrite E in Hr. discriminate.
  - intros H. apply trimStart_nil_iff in H. rewrite H. done.
Qed.

Lemma startsWith_app p s : startsWith p (p ++ s) = true.
Proof. induction p as [|c p IH]; simpl; [done|]. by rewrite N.eqb_refl. Qed.

Lemma startsWith_prefix p s : startsWith p s = true <-> exists r, s = p ++ r.
Proof.
  revert s. induction p as [|c p IH]; intros s; simpl.
  - split; [eauto|done].
  - destruct s as [|d s]; [split; [done|intros [r [=]]]|].
    rewrite andb_true_iff, N.eqb_eq, IH. split.
    + intros [-> [r ->]]. by exists r.
    + intros [r [= -> ->]]. eauto.
Qed.

(** No digit string contains the hyphen that [fileName] puts after it. *)
Lemma digits_no_hyphen u : 45 ∉ digits u.
Proof.
  induction u; simpl; rewrite ?elem_of_cons; [apply not_elem_of_nil|..];
    intros [?|?]; done.
Qed.

Lemma digits_inj u v : digits u = digits v -> u = v.
Proof.
  revert v. induction u; intros []; simpl; try discriminate; try done;
    intros [= H]; f_equal; auto.
Qed.

Lemma Number_toString_inj (n m : N) : Number_toString n = Number_toString m -> n = m.
Proof. intros H. apply DecimalN.Unsigned.to_uint_inj, digits_inj, H. Qed.

(** Splitting at the first occurrence of a separator is unambiguous. *)
Lemma split_at_first (c : N) (a b x y : jsstring) :
  c ∉ a -> c ∉ b -> a ++ c :: x = b ++ c :: y -> a = b /\ x = y.
Proof.
  revert b. induction a as [|d a IH]; intros [|e b] Ha Hb; simpl.
  - by intros [= ->].
  - intros [= <- _]. exfalso. apply Hb. by left.
  - intros [= -> _]. exfalso. apply Ha. by left.
  - intros [= -> H]. apply IH in H as [-> ->]; [done|..].
    + intros ?. apply Ha. by right.
    + intros ?. apply Hb. by right.
Qed.
End Strings.

(** ** Submission *)

Section Submission.
Implicit Types (st : State) (c : Config) (now : N).
Implicit Types (up : Settled (Result UploadData)).
Implicit Types (cr : Settled (Result (option (list Post.t)))).

Lemma handleSubmit_rejected now st :
  rejected st = true -> handleSubmit now st = (st, None).
Proof.
  unfold rejected, handleSubmit. intros H.
  destruct (negb (truthy (trim (message st))) && negb (present (selectedFile st)));
    [done|]. simpl in H. by rewrite H.
Qed.

Lemma handleSubmit_accepted now st :
  rejected st = false ->
  handleSubmit now st =
    (setError None (setIsSubmitting true st),
     Some match selectedFile st with
          | Some f => (CallUploadImage f (fileName now f), AwaitUpload (message st))
          | None => (CallCreatePost (message st) None, AwaitCreate)
          end).
Proof.
  unfold rejected, handleSubmit. intros H.
  apply orb_false_iff in H as [-> ->]. by destruct (selectedFile st).
Qed.

Lemma rejected_false_file st f :
  selectedFile st = Some f -> (length (message st) <= MAX_CHARACTERS)%nat ->
  rejected st = false.
Proof.
  unfold rejected. intros -> H. simpl. rewrite andb_false_r. simpl.
  by apply Nat.ltb_ge.
Qed.

Lemma suspend_nothing c : suspend (ui c, None) (inflight c) c = c.
Proof. by destruct c. Qed.
End Submission.

(** C4. A draft whose message is empty or white space only while no file is
    selected, or whose message is longer than 280 code units, is rejected
    silently: [handleSubmit] returns at once with the state it was given and
    without a gateway call, whatever the gateway would have answered, and
    the event loop is left as it was. *)
Theorem submit_rejected_is_noop (c : Config) (now : N)
    (up : Settled (Result UploadData)) (cr : Settled (Result (option (list Post.t)))) :
  (forallb isWhiteSpace (message (ui c)) = true /\ selectedFile (ui c) = None)
  \/ (280 < length (message (ui c)))%nat ->
  handleSubmit now (ui c) = (ui c, None)
  /\ submit now up cr (ui c) = (ui c, [])
  /\ step c (SubmitTriggered now) = c.
Proof.
  intros H.
  assert (Hr : rejected (ui c) = true).
  { unfold rejected. destruct H as [[Hw Hf] | Hlen].
    - apply trim_falsy_iff in Hw. by rewrite Hw, Hf.
    - apply orb_true_iff. right. by apply Nat.ltb_lt. }
  pose proof (handleSubmit_rejected now _ Hr) as Hs.
  split; [exact Hs|]. split.
  - unfold submit. by rewrite Hs.
  - simpl. rewrite Hs. apply suspend_nothing.
Qed.

Lemma submit_rejected_is_noop_witness :
  handleSubmit 1700000000000 (ui blank_draft) = (ui blank_draft, None)
  /\ submit 1700000000000 Rejected Rejected (ui blank_draft) = (ui blank_draft, [])
  /\ step blank_draft (SubmitTriggered 1700000000000) = blank_draft.
Proof.
  apply (submit_rejected_is_noop blank_draft 1700000000000 Rejected Rejected).
  left. split; reflexivity.
Defined.

(** The scenario of the specification: 281 code units, file or not. *)
Example submit_281 :
  let st := setMessage (replicate 281 97) initial in
  submit 0 Rejected Rejected st = (st, []).
Proof. reflexivity. Qed.

(** C3. When a file is selected and [uploadImage] returns a failure, the
    error shown is the upload error, the only gateway call made is that
    upload ([createPost] is never called), [isSubmitting] is false again,
    and message, file and preview are as they were; the same holds in
    whatever state the failure is delivered to. *)
Theorem upload_failure_keeps_draft (st : State) (now : N) (f : File.t) (msg : jsstring)
    (cr : Settled (Result (option (list Post.t)))) :
  selectedFile st = Some f ->
  (length (message st) <= 280)%nat ->
  let r := submit now (Fulfilled (WithError msg)) cr st in
  error r.1 = Some upload_failed
  /\ r.2 = [CallUploadImage f (fileName now f)]
  /\ (forall m u, CallCreatePost m u ∉ r.2)
  /\ isSubmitting r.1 = false
  /\ draft r.1 = draft st
  /\ posts r.1 = posts st
  /\ (forall m st2,
        let r2 := resumeUpload m (Fulfilled (WithError msg)) st2 in
        r2.2 = None /\ error r2.1 = Some upload_failed /\ isSubmitting r2.1 = false
        /\ draft r2.1 = draft st2 /\ posts r2.1 = posts st2).
Proof.
  intros Hf Hlen r.
  assert (Hr : r = (finally (setError (Some upload_failed)
                      (setError None (setIsSubmitting true st))),
                    [CallUploadImage f (fileName now f)])).
  { subst r. unfold submit.
    rewrite (handleSubmit_accepted now st (rejected_false_file st f Hf Hlen)), Hf.
    reflexivity. }
  rewrite Hr. simpl. repeat split.
  intros m u Hin. apply list_elem_of_singleton in Hin. discriminate.
Qed.

Lemma upload_failure_keeps_draft_witness :
  let r := submit 1700000000000 (Fulfilled (WithError (js "Bucket not found"))) Rejected
             photo_draft in
  error r.1 = Some upload_failed
  /\ r.2 = [CallUploadImage photo (fileName 1700000000000 photo)]
  /\ (forall m u, CallCreatePost m u ∉ r.2)
  /\ isSubmitting r.1 = false
  /\ draft r.1 = draft photo_draft
  /\ posts r.1 = posts photo_draft
  /\ (forall m st2,
        let r2 := resumeUpload m (Fulfilled (WithError (js "Bucket not found"))) st2 in
        r2.2 = None /\ error r2.1 = Some upload_failed /\ isSubmitting r2.1 = false
        /\ draft r2.1 = draft st2 /\ posts r2.1 = posts st2).
Proof.
  apply (upload_failure_keeps_draft photo_draft 1700000000000 photo
           (js "Bucket not found") Rejected).
  - reflexivity.
  - vm_compute. lia.
Defined.

(** C2, at a failing input. The post table cannot be reached, so
    [createPost] returns [{ error }]; [handleSubmit] does not look at what
    [createPost] returns: the message, the file and the preview are cleared
    and no error is shown, exactly as after a successful write. Only a
    rejected promise reaches the [catch] block. *)
Theorem createPost_failure_clears_draft :
  let up := Fulfilled (WithData {| up_path := fileName 5 photo; publicURL := js "u" |}) in
  let cr := (@createPost unit offline (js "hello") (Some (js "u")) tt).1 in
  cr = Fulfilled (WithError (js "TypeError: Failed to fetch"))
  /\ submit 5 up cr photo_draft =
       (initial, [CallUploadImage photo (fileName 5 photo);
                  CallCreatePost (js "hello") (Some (js "u"))])
  /\ draft photo_draft <> draft initial
  /\ error initial = None
  /\ error (submit 5 up Rejected photo_draft).1 = Some create_failed
  /\ draft (submit 5 up Rejected photo_draft).1 = draft photo_draft.
Proof. repeat split; vm_compute; discriminate. Qed.

(** ** File selection *)

Lemma handleFileChange_some (f : File.t) (st : State) :
  handleFileChange (Some f) st =
    (setSelectedFile (Some f) st,
     if startsWith (js "image/") (File.type f) then Some f else None).
Proof. unfold handleFileChange. by destruct (startsWith _ _). Qed.

(** C10. Choosing a file whose type does not start with "image/" makes it
    the selected file, starts no reader and leaves the preview that was
    there; a reader is started exactly for the types that start with
    "image/", the preview changes only when a reader ends with a string,
    and [handleFileChange] drops file and preview only when the selection
    is emptied. *)
Theorem non_image_keeps_preview (c : Config) (f : File.t) :
  startsWith (js "image/") (File.type f) = false ->
  let r := handleFileChange (Some f) (ui c) in
  (selectedFile r.1 = Some f /\ filePreview r.1 = filePreview (ui c) /\ r.2 = None
   /\ readers (step c (FileChanged (Some f))) = readers c)
  /\ (forall g st, (handleFileChange (Some g) st).2 = Some g
                   <-> exists rest, File.type g = js "image/" ++ rest)
  /\ (forall g st, selectedFile (handleFileChange (Some g) st).1 = Some g
                   /\ filePreview (handleFileChange (Some g) st).1 = filePreview st)
  /\ (forall st, selectedFile (handleFileChange None st).1 = None
                 /\ filePreview (handleFileChange None st).1 = None
                 /\ (handleFileChange None st).2 = None)
  /\ (forall s st, filePreview (onloadend (Some s) st) = Some s
                   /\ onloadend None st = st).
Proof.
  intros Hty r. subst r. split; [|split; [|split; [|split]]].
  - unfold step. rewrite handleFileChange_some, Hty. done.
  - intros g st. rewrite handleFileChange_some, <- startsWith_prefix. cbn [snd].
    destruct (startsWith _ (File.type g)); split; intros; congruence.
  - intros g st. by rewrite handleFileChange_some.
  - done.
  - done.
Qed.

Lemma non_image_keeps_preview_witness :
  let c := with_ui photo_draft mounted in
  let r := handleFileChange (Some notes) (ui c) in
  (selectedFile r.1 = Some notes /\ filePreview r.1 = filePreview (ui c) /\ r.2 = None
   /\ readers (step c (FileChanged (Some notes))) = readers c)
  /\ (forall g st, (handleFileChange (Some g) st).2 = Some g
                   <-> exists rest, File.type g = js "image/" ++ rest)
  /\ (forall g st, selectedFile (handleFileChange (Some g) st).1 = Some g
                   /\ filePreview (handleFileChange (Some g) st).1 = filePreview st)
  /\ (forall st, selectedFile (handleFileChange None st).1 = None
                 /\ filePreview (handleFileChange None st).1 = None
                 /\ (handleFileChange None st).2 = None)
  /\ (forall s st, filePreview (onloadend (Some s) st) = Some s
                   /\ onloadend None st = st).
Proof.
  apply (non_image_keeps_preview (with_ui photo_draft mounted) notes). reflexivity.
Defined.

(** After [notes] is chosen over [photo], the preview shown is still the
    one of [photo]. *)
Example stale_preview :
  let st := (handleFileChange (Some notes) photo_draft).1 in
  selectedFile st = Some notes /\ filePreview st = filePreview photo_draft
  /\ filePreview st <> None.
Proof. repeat split. discriminate. Qed.

(** ** The feed *)

Section Feed.
Implicit Types (c : Config) (e : Event) (es : list Event) (l : list Post.t).

(** Which events write [posts], and what. *)
Lemma step_posts c e :
  posts (ui (step c e)) =
    match e with
    | FetchResolved r =>
        if fetching c then default (posts (ui c)) (Response.data r) else posts (ui c)
    | InsertNotified p => if subscribed c then p :: posts (ui c) else posts (ui c)
    | _ => posts (ui c)
    end.
Proof.
  destruct e; simpl; try done.
  - destruct (fetching c); [|done]. unfold fetchInitialPosts.
    by destruct (Response.data r), (Response.error r).
  - by destruct (subscribed c).
  - destruct file as [f|]; [|done]. by rewrite handleFileChange_some.
  - destruct (readers c); [done|]. by destruct result.
  - unfold onChange. by destruct (truthy_or_null _).
  - unfold handleSubmit. repeat case_match; by simplify_eq.
  - destruct (take_upload _) as [[m rest]|]; [|done].
    destruct o as [[d|msg]|]; done.
  - destruct (take_create _); [|done]. by destruct o.
Qed.

Lemma step_fetching c e :
  fetching (step c e) = if is_fetch e then false else fetching c.
Proof.
  destruct e; simpl; try done.
  - by destruct (fetching c) eqn:E.
  - by destruct (subscribed c).
  - by destruct (handleFileChange _ _).
  - by destruct (readers c).
  - by destruct (handleSubmit _ _) as [? [[] |]].
  - destruct (take_upload _) as [[m rest]|]; [|done].
    by destruct (resumeUpload _ _ _) as [? [[] |]].
  - by destruct (take_create _).
Qed.

Lemma step_subscribed c e :
  subscribed (step c e) = if is_unmount e then false else subscribed c.
Proof.
  destruct e; simpl; try done.
  - by destruct (fetching c).
  - by destruct (subscribed c) eqn:E.
  - by destruct (handleFileChange _ _).
  - by destruct (readers c).
  - by destruct (handleSubmit _ _) as [? [[] |]].
  - destruct (take_upload _) as [[m rest]|]; [|done].
    by destruct (resumeUpload _ _ _) as [? [[] |]].
  - by destruct (take_create _).
Qed.

(** Once the startup query has resolved and while the channel is open,
    the feed only grows, at its head, by the notified posts. *)
Lemma run_posts es : forall c,
  fetching c = false -> subscribed c = true ->
  forallb (fun e => negb (is_unmount e)) es = true ->
  posts (ui (run c es)) = rev (notified es) ++ posts (ui c).
Proof.
  induction es as [|e es IH]; intros c Hf Hs Hu; [done|].
  simpl in Hu. apply andb_true_iff in Hu as [He Hu].
  change (run c (e :: es)) with (run (step c e) es).
  assert (Hf' : fetching (step c e) = false).
  { rewrite step_fetching, Hf. by destruct (is_fetch e). }
  assert (Hs' : subscribed (step c e) = true).
  { rewrite step_subscribed, Hs. by destruct (is_unmount e). }
  rewrite (IH _ Hf' Hs' Hu), step_posts, Hf, Hs. destruct e; try done.
  unfold notified. simpl. by rewrite <- app_assoc.
Qed.

Lemma NoDup_rev_iff (xs : list Z) : NoDup (rev xs) <-> NoDup xs.
Proof.
  by rewrite <- (Permutation_rev xs).
Qed.

Lemma descending_cons p l :
  descending (p :: l) <-> (forall q, q ∈ l -> newer q p = false) /\ descending l.
Proof.
  unfold descending. split.
  - intros H. split.
    + intros q [j Hj]%list_elem_of_lookup. apply (H 0%nat (S j)); [lia|done..].
    + intros i j a b Hij Hi Hj. apply (H (S i) (S j)); [lia|done..].
  - intros [Hp Hl] [|i] [|j] a b Hij Hi Hj; try lia; simpl in *.
    + simplify_eq. apply Hp, list_elem_of_lookup. eauto.
    + apply (Hl i j); [lia|done..].
Qed.

Lemma newest_first_spec l : newest_first l = true <-> descending l.
Proof.
  induction l as [|p l IH].
  - split; [|done]. intros _ i j a b _ Hi. by rewrite lookup_nil in Hi.
  - simpl. rewrite descending_cons, andb_true_iff, IH, forallb_forall.
    split; intros [Hp Hl]; (split; [|done]); intros q Hq.
    + apply negb_true_iff, Hp. by apply list_elem_of_In.
    + apply negb_true_iff, Hp. by apply list_elem_of_In.
Qed.
End Feed.

(** C1, as stated, fails: the INSERT callback makes no test on [id]. When
    the startup query already returned row 5 and the channel then notifies
    row 5, the feed holds it twice. *)
Lemma echo_is_duplicated :
  let c := run mounted [FetchResolved (answered [post5]); InsertNotified post5] in
  posts (ui c) = [post5; post5] /\ ~ NoDup (ids (posts (ui c))).
Proof.
  split; [reflexivity|]. simpl. intros H. apply NoDup_cons_1_1 in H.
  apply H. by left.
Qed.

(** C1, amended. Every notified post is put at the head of the feed,
    whether or not its [id] is there already, and nothing else adds to the
    feed (a local submission does not). So, once the startup query has
    resolved and while the channel is open, any sequence of events leaves
    the notified posts, latest first, in front of the former feed; and the
    feed has one entry per [id] exactly when the notified ids are pairwise
    distinct, none of them was in the feed, and the feed had no duplicate. *)
Theorem inserts_are_prepended (c : Config) (es : list Event) :
  fetching c = false -> subscribed c = true ->
  forallb (fun e => negb (is_unmount e)) es = true ->
  posts (ui (run c es)) = rev (notified es) ++ posts (ui c)
  /\ (NoDup (ids (posts (ui (run c es)))) <->
        NoDup (ids (notified es))
        /\ (forall x, x ∈ ids (notified es) -> x ∉ ids (posts (ui c)))
        /\ NoDup (ids (posts (ui c)))).
Proof.
  intros Hf Hs Hu. rewrite (run_posts es c Hf Hs Hu). split; [done|].
  unfold ids. rewrite map_app, map_rev, NoDup_app, NoDup_rev_iff.
  split; intros (H1 & H2 & H3); (split; [done|split; [|done]]); intros x Hx.
  - apply H2. apply list_elem_of_In, in_rev. rewrite rev_involutive.
    by apply list_elem_of_In.
  - apply H2. apply list_elem_of_In. apply list_elem_of_In in Hx.
    by apply in_rev in Hx.
Qed.

Lemma inserts_are_prepended_witness :
  posts (ui (run loaded hello_session)) = rev (notified hello_session) ++ posts (ui loaded)
  /\ (NoDup (ids (posts (ui (run loaded hello_session)))) <->
        NoDup (ids (notified hello_session))
        /\ (forall x, x ∈ ids (notified hello_session) -> x ∉ ids (posts (ui loaded)))
        /\ NoDup (ids (posts (ui loaded)))).
Proof.
  apply (inserts_are_prepended loaded hello_session); reflexivity.
Defined.

(** The scenario of the specification: the submission itself adds nothing,
    so the notification of row 5 is its only entry. *)
Example hello_session_feed :
  posts (ui (run loaded hello_session)) = [post5; post2; post1]
  /\ calls (run loaded hello_session) = [CallCreatePost (js "hello") None]
  /\ draft (ui (run loaded hello_session)) = draft initial.
Proof. repeat split. Qed.

(** C5, as stated, fails: the callback puts the notified post first without
    looking at [created_at]. The startup query returned rows 2 and 1 and
    the notification of row 1 arrives afterwards: row 2, which is newer,
    now comes after row 1. *)
Lemma late_echo_breaks_order :
  descending (posts (ui loaded))
  /\ posts (ui (step loaded (InsertNotified post1))) = [post1; post2; post1]
  /\ ~ descending (posts (ui (step loaded (InsertNotified post1)))).
Proof.
  split; [by apply newest_first_spec|]. split; [reflexivity|].
  intros H. apply newest_first_spec in H. discriminate.
Qed.

(** C5, amended. The feed is written by the startup query, which stores the
    answer of the post table as it comes, and by the live channel, which
    puts the notified post first; no other event writes it (a submission
    does not). A feed in descending [created_at] order is so after the
    startup query when the answer is, and after a notification exactly
    when no post of the feed is newer than the notified one. *)
Theorem feed_order_after_mutations (c : Config) :
  descending (posts (ui c)) ->
  (forall r, posts (ui (step c (FetchResolved r))) =
               (if fetching c then default (posts (ui c)) (Response.data r)
                else posts (ui c))
             /\ (descending (default (posts (ui c)) (Response.data r)) ->
                 descending (posts (ui (step c (FetchResolved r))))))
  /\ (forall p, subscribed c = true ->
        posts (ui (step c (InsertNotified p))) = p :: posts (ui c)
        /\ (descending (posts (ui (step c (InsertNotified p)))) <->
            forall q, q ∈ posts (ui c) -> newer q p = false))
  /\ (forall e, is_fetch e = false -> is_insert e = false ->
        posts (ui (step c e)) = posts (ui c)).
Proof.
  intros Hd. split; [|split].
  - intros r. rewrite step_posts. split; [done|]. by destruct (fetching c).
  - intros p Hs. rewrite step_posts, Hs. split; [done|].
    rewrite descending_cons. tauto.
  - intros e He1 He2. rewrite step_posts. by destruct e.
Qed.

Lemma feed_order_after_mutations_witness :
  (forall r, posts (ui (step loaded (FetchResolved r))) =
               (if fetching loaded then default (posts (ui loaded)) (Response.data r)
                else posts (ui loaded))
             /\ (descending (default (posts (ui loaded)) (Response.data r)) ->
                 descending (posts (ui (step loaded (FetchResolved r))))))
  /\ (forall p, subscribed loaded = true ->
        posts (ui (step loaded (InsertNotified p))) = p :: posts (ui loaded)
        /\ (descending (posts (ui (step loaded (InsertNotified p)))) <->
            forall q, q ∈ posts (ui loaded) -> newer q p = false))
  /\ (forall e, is_fetch e = false -> is_insert e = false ->
        posts (ui (step loaded e)) = posts (ui loaded)).
Proof.
  apply (feed_order_after_mutations loaded).
  apply newest_first_spec. reflexivity.
Defined.

(** ** Startup *)

Section Startup.
Implicit Types (c : Config) (e : Event) (es : list Event).

Lemma step_error c e :
  writes_error e = false -> error (ui (step c e)) = error (ui c).
Proof.
  destruct e; simpl; try done; intros _.
  - by destruct (subscribed c).
  - destruct file as [f|]; [|done]. by rewrite handleFileChange_some.
  - destruct (readers c); [done|]. by destruct result.
Qed.

Lemma run_fetching es : forall c, fetching c = false -> fetching (run c es) = false.
Proof.
  induction es as [|e es IH]; intros c Hf; [done|].
  apply (IH (step c e)). rewrite step_fetching, Hf. by destruct (is_fetch e).
Qed.

Lemma run_error es : forall c,
  forallb (fun e => negb (writes_error e)) es = true ->
  error (ui (run c es)) = error (ui c).
Proof.
  induction es as [|e es IH]; intros c H; [done|].
  simpl in H. apply andb_true_iff in H as [He H].
  change (run c (e :: es)) with (run (step c e) es).
  rewrite (IH _ H). apply step_error. by apply negb_true_iff.
Qed.

Lemma fetch_ignored c r : fetching c = false -> step c (FetchResolved r) = c.
Proof. simpl. by intros ->. Qed.
End Startup.

(** C6, as stated, fails on two points. A failed startup query leaves the
    feed as it is, so a post notified before the failure is shown next to
    the error; and the error is not persistent, the next edit of the
    message clears it. *)
Lemma load_error_not_persistent :
  let c := run mounted [InsertNotified post5; FetchResolved failed] in
  error (ui c) = Some load_failed
  /\ posts (ui c) = [post5]
  /\ error (ui (step c (MessageChanged (js "h")))) = None.
Proof. repeat split. Qed.

(** C6, amended. The startup query is in flight once and resolves once.
    When it brings data, the feed becomes that data, in the order the
    store gave it, whatever the feed held; when it does not, the feed is
    left as it was. When it brings an error, the load-error message is
    set; it then stays through every sequence of events that holds no
    message edit and no step of a submission. Nothing else of the state
    changes. *)
Theorem startup_fetch (c : Config) (r : Response.t (list Post.t)) :
  fetching c = true ->
  let c' := step c (FetchResolved r) in
  (fetching mounted = true /\ forall es r', fetching (run c' es) = false
                                         /\ step (run c' es) (FetchResolved r') = run c' es)
  /\ (forall d, Response.data r = Some d ->
        posts (ui c') = d /\ (descending d -> descending (posts (ui c'))))
  /\ (Response.data r = None -> posts (ui c') = posts (ui c))
  /\ (is_Some (Response.error r) ->
        error (ui c') = Some load_failed
        /\ forall es, forallb (fun e => negb (writes_error e)) es = true ->
                     error (ui (run c' es)) = Some load_failed)
  /\ (Response.error r = None -> error (ui c') = error (ui c))
  /\ (draft (ui c') = draft (ui c) /\ isSubmitting (ui c') = isSubmitting (ui c)
      /\ inflight c' = inflight c /\ calls c' = calls c).
Proof.
  intros Hf c'.
  assert (Hc' : c' = {| ui := fetchInitialPosts r (ui c); fetching := false;
                        subscribed := subscribed c; readers := readers c;
                        inflight := inflight c; calls := calls c |}).
  { subst c'. simpl. by rewrite Hf. }
  assert (Hf' : fetching c' = false) by by rewrite Hc'.
  split; [|split; [|split; [|split; [|split]]]].
  - split; [done|]. intros es r'.
    pose proof (run_fetching es c' Hf') as H. split; [done|]. by apply fetch_ignored.
  - intros d Hd. rewrite Hc'. simpl. unfold fetchInitialPosts. rewrite Hd.
    by destruct (Response.error r).
  - intros Hd. rewrite Hc'. simpl. unfold fetchInitialPosts. rewrite Hd.
    by destruct (Response.error r).
  - intros [x Hx].
    assert (He : error (ui c') = Some load_failed).
    { rewrite Hc'. simpl. unfold fetchInitialPosts. by rewrite Hx. }
    split; [done|]. intros es Hw. by rewrite run_error.
  - intros He. rewrite Hc'. simpl. unfold fetchInitialPosts. rewrite He.
    by destruct (Response.data r).
  - rewrite Hc'. simpl. unfold fetchInitialPosts.
    by destruct (Response.data r), (Response.error r).
Qed.

Lemma startup_fetch_witness :
  let c' := step mounted (FetchResolved (answered [post2; post1])) in
  (fetching mounted = true /\ forall es r', fetching (run c' es) = false
                                         /\ step (run c' es) (FetchResolved r') = run c' es)
  /\ (forall d, Response.data (answered [post2; post1]) = Some d ->
        posts (ui c') = d /\ (descending d -> descending (posts (ui c'))))
  /\ (Response.data (answered [post2; post1]) = None -> posts (ui c') = posts (ui mounted))
  /\ (is_Some (Response.error (answered [post2; post1])) ->
        error (ui c') = Some load_failed
        /\ forall es, forallb (fun e => negb (writes_error e)) es = true ->
                     error (ui (run c' es)) = Some load_failed)
  /\ (Response.error (answered [post2; post1]) = None -> error (ui c') = error (ui mounted))
  /\ (draft (ui c') = draft (ui mounted) /\ isSubmitting (ui c') = isSubmitting (ui mounted)
      /\ inflight c' = inflight mounted /\ calls c' = calls mounted).
Proof.
  apply (startup_fetch mounted (answered [post2; post1])). reflexivity.
Defined.

(** The scenario of the specification: "b" is shown before "a". *)
Example fetch_two_posts :
  map Post.message (posts (ui loaded)) = [js "b"; js "a"].
Proof. reflexivity. Qed.

(** ** The gateway boundary *)

Lemma message_or_default_truthy (e : SupabaseError) : truthy (message_or_default e) = true.
Proof.
  unfold message_or_default. destruct (err_message e) as [m|]; [|done].
  by destruct (truthy m) eqn:E.
Qed.

Lemma submit_failure_recovered (st : State) (now : N)
    (up : Settled (Result UploadData)) (cr : Settled (Result (option (list Post.t)))) :
  rejected st = false ->
  (is_Some (selectedFile st) /\ has_error_or_thrown up = true) \/ cr = Rejected ->
  let st' := (submit now up cr st).1 in
  is_Some (error st') /\ draft st' = draft st
  /\ isSubmitting st' = false /\ submit_disabled st' = false.
Proof.
  intros Hr H. unfold submit. rewrite (handleSubmit_accepted now st Hr).
  assert (Hd : forall e, submit_disabled (finally (setError e
                  (setError None (setIsSubmitting true st)))) = false).
  { intros e. unfold submit_disabled. simpl. exact Hr. }
  destruct H as [[[f Hf] Hup] | ->].
  - rewrite Hf. destruct up as [[d|msg]|]; [discriminate|..]; simpl;
      (split; [eauto|split; [done|split; [done|apply Hd]]]).
  - destruct (selectedFile st) as [f|]; [destruct up as [[d|msg]|]|]; simpl;
      (split; [eauto|split; [done|split; [done|apply Hd]]]).
Qed.

(** C7, at a failing input. The gateway does not throw: with the post
    table out of reach, [createPost] resolves to [{ error }] with the
    message of the client. But the controller is not left in a state from
    which the submission can be retried: "hello" was typed and submitted,
    and after the failure the message is gone, no error is shown and the
    Share button is disabled. Every failure that the controller does see
    (an upload that returns [{ error }] or throws, a [createPost] that
    throws) is recovered as the claim says: an error is shown, the draft
    is intact, [isSubmitting] is false and the Share button is enabled. *)
Theorem write_failure_is_not_retryable :
  let cr := (@createPost unit offline (js "hello") None tt).1 in
  let r := submit 5 Rejected cr hello_draft in
  cr = Fulfilled (WithError (js "TypeError: Failed to fetch"))
  /\ r.2 = [CallCreatePost (js "hello") None]
  /\ r.1 = initial
  /\ draft r.1 <> draft hello_draft
  /\ error r.1 = None
  /\ submit_disabled r.1 = true
  /\ (forall st now up cr',
        rejected st = false ->
        (is_Some (selectedFile st) /\ has_error_or_thrown up = true) \/ cr' = Rejected ->
        let st' := (submit now up cr' st).1 in
        is_Some (error st') /\ draft st' = draft st
        /\ isSubmitting st' = false /\ submit_disabled st' = false).
Proof.
  split; [reflexivity|]. split; [reflexivity|]. split; [reflexivity|].
  split; [discriminate|]. split; [reflexivity|]. split; [reflexivity|].
  intros st now up cr'. apply submit_failure_recovered.
Qed.

(** ** Object names *)

Lemma fileName_inj (now now' : N) (f f' : File.t) :
  fileName now f = fileName now' f' -> now = now' /\ File.name f = File.name f'.
Proof.
  unfold fileName. change (js "-") with [45]. simpl. intros H.
  apply split_at_first in H as [Hn Hf]; [|apply digits_no_hyphen..].
  split; [by apply Number_toString_inj|done].
Qed.

Lemma bucket_upload_keeps (publicUrl : jsstring -> jsstring) (name : jsstring)
    (g : File.t) (bucket : gmap jsstring File.t) :
  forall n o, bucket !! n = Some o ->
    (@uploadImage _ (bucket_storage publicUrl) g name bucket).2 !! n = Some o.
Proof.
  intros n o Hn. unfold uploadImage. simpl. unfold bucket_upload.
  destruct (bucket !! name) eqn:Hname; simpl; [done|].
  rewrite lookup_insert_ne; [done|]. intros ->. congruence.
Qed.

(** C8. [uploadImage] puts with [upsert: false]: on the bucket, a name
    that is taken makes it return [{ error }] and leaves the bucket as it
    is, and no upload ever changes an object that is there. A submission
    with a file uploads it under the decimal reading of [Date.now()], a
    hyphen and the name of the file, so that names derived at different
    readings of the clock differ. *)
Theorem upload_never_overwrites (publicUrl : jsstring -> jsstring)
    (bucket : gmap jsstring File.t)
    (st : State) (now : N) (f old : File.t) :
  selectedFile st = Some f ->
  (length (message st) <= 280)%nat ->
  bucket !! fileName now f = Some old ->
  (handleSubmit now st).2 =
     Some (CallUploadImage f (Number_toString now ++ js "-" ++ File.name f),
           AwaitUpload (message st))
  /\ (exists m, @uploadImage _ (bucket_storage publicUrl) f (fileName now f) bucket
                = (Fulfilled (WithError m), bucket))
  /\ (forall g name n o, bucket !! n = Some o ->
        (@uploadImage _ (bucket_storage publicUrl) g name bucket).2 !! n = Some o)
  /\ (forall now' f', now' <> now -> fileName now' f' <> fileName now f).
Proof.
  intros Hf Hlen Hold. split; [|split; [|split]].
  - rewrite (handleSubmit_accepted now st (rejected_false_file st f Hf Hlen)), Hf.
    reflexivity.
  - unfold uploadImage. simpl. unfold bucket_upload. rewrite Hold. simpl. eauto.
  - intros g name. apply bucket_upload_keeps.
  - intros now' f' Hne H. by apply fileName_inj in H as [? _].
Qed.

Lemma upload_never_overwrites_witness :
  (handleSubmit 1748772420000 photo_draft).2 =
     Some (CallUploadImage photo
             (Number_toString 1748772420000 ++ js "-" ++ File.name photo),
           AwaitUpload (message photo_draft))
  /\ (exists m, @uploadImage _ (bucket_storage raw_address) photo
                  (fileName 1748772420000 photo) taken
                = (Fulfilled (WithError m), taken))
  /\ (forall g name n o, taken !! n = Some o ->
        (@uploadImage _ (bucket_storage raw_address) g name taken).2 !! n = Some o)
  /\ (forall now' f', now' <> 1748772420000 ->
        fileName now' f' <> fileName 1748772420000 photo).
Proof.
  apply (upload_never_overwrites raw_address taken photo_draft 1748772420000 photo notes).
  - reflexivity.
  - vm_compute. lia.
  - apply lookup_singleton_eq.
Defined.

Example fileName_photo : fileName 1748772420000 photo = js "1748772420000-cat.png".
Proof. reflexivity. Qed.

(** ** Re-entrancy *)

Section Reentrancy.
Implicit Types (c : Config) (e : Event) (es : list Event).

Lemma submit_disabled_false st :
  submit_disabled st = false <-> isSubmitting st = false /\ rejected st = false.
Proof.
  unfold submit_disabled, rejected.
  destruct (isSubmitting st); simpl; [|tauto]. split; [done|]. by intros [? _].
Qed.

Lemma step_one_in_flight c e :
  enabled (ui c) e = true -> one_in_flight c -> one_in_flight (step c e).
Proof.
  unfold one_in_flight. intros He Hinv.
  destruct c as [st fe su rd infl cl]. destruct e; simpl in *.
  - destruct fe; [|done]. simpl. unfold fetchInitialPosts.
    by destruct (Response.data r), (Response.error r).
  - by destruct su.
  - done.
  - destruct file as [f|]; [|done]. by rewrite handleFileChange_some.
  - destruct rd; [done|]. by destruct result.
  - done.
  - unfold onChange. by destruct (truthy_or_null _).
  - apply negb_true_iff, submit_disabled_false in He as [Hs Hr].
    rewrite (handleSubmit_accepted now _ Hr).
    destruct infl as [|k [|k' l]]; [|congruence|done].
    by destruct (selectedFile st).
  - destruct infl as [|k [|k' l]]; [done| |done].
    destruct k as [m|]; [|done]. simpl. by destruct o as [[d|msg]|].
  - destruct infl as [|k [|k' l]]; [done| |done].
    destruct k as [m|]; [done|]. simpl. by destruct o.
Qed.

Lemma ui_run_one_in_flight es : forall c,
  one_in_flight c -> one_in_flight (ui_run c es).
Proof.
  induction es as [|e es IH]; intros c Hinv; [done|].
  apply (IH (ui_step c e)). unfold ui_step.
  destruct (enabled (ui c) e) eqn:He; [|done]. by apply step_one_in_flight.
Qed.
End Reentrancy.

(** The button is disabled whenever the countdown is negative. *)
Lemma negative_countdown_disables (st : State) :
  (remaining st < 0)%Z -> submit_disabled st = true.
Proof.
  unfold remaining, submit_disabled. intros H.
  assert (Hlt : (MAX_CHARACTERS <? length (message st))%nat = true)
    by (apply Nat.ltb_lt; lia).
  rewrite Hlt. by rewrite !orb_true_r.
Qed.

(** C9, as stated, fails: [handleSubmit] does not read [isSubmitting].
    Invoked a second time while the first run is suspended on
    [createPost], it makes a second gateway call and two runs are in
    flight. *)
Lemma resubmit_makes_second_call :
  let c := run mounted [MessageChanged (js "hello"); SubmitTriggered 1] in
  isSubmitting (ui c) = true
  /\ calls c = [CallCreatePost (js "hello") None]
  /\ calls (step c (SubmitTriggered 2)) =
       [CallCreatePost (js "hello") None; CallCreatePost (js "hello") None]
  /\ inflight (step c (SubmitTriggered 2)) = [AwaitCreate; AwaitCreate].
Proof. repeat split. Qed.

(** C9, amended. The gate is in the rendered controls, not in the handler:
    the Share button is disabled while [isSubmitting] is true, so a
    submission triggered through it then does nothing and makes no gateway
    call; and whatever happens to a page that is driven through its
    controls, at most one run of [handleSubmit] is in flight, and one is
    exactly when [isSubmitting] is true. *)
Theorem one_submission_through_the_button (es : list Event) :
  let c := ui_run mounted es in
  (length (inflight c) <= 1)%nat
  /\ (isSubmitting (ui c) = true <-> inflight c <> [])
  /\ (isSubmitting (ui c) = true ->
        submit_disabled (ui c) = true
        /\ forall now, ui_step c (SubmitTriggered now) = c).
Proof.
  intros c.
  assert (Hinv : one_in_flight c) by by apply ui_run_one_in_flight.
  unfold one_in_flight in Hinv. split; [|split].
  - destruct (inflight c) as [|k [|k' l]]; simpl; [lia|lia|done].
  - destruct (inflight c) as [|k [|k' l]]; [|done..].
    rewrite Hinv. split; done.
  - intros Hs. assert (Hd : submit_disabled (ui c) = true).
    { unfold submit_disabled. by rewrite Hs. }
    split; [done|]. intros now. unfold ui_step. simpl. by rewrite Hd.
Qed.

(** Through the button, the second press of the counterexample is lost. *)
Example second_press_ignored :
  let c := ui_run mounted [MessageChanged (js "hello"); SubmitTriggered 1;
                           SubmitTriggered 2] in
  calls c = [CallCreatePost (js "hello") None] /\ inflight c = [AwaitCreate].
Proof. repeat split. Qed.

(** * Further properties *)

(** ** The two revisions *)

Lemma forget_step (c : Config) (e : Event) :
  forget_config (step c e) = Legacy.step (forget_config c) e.
Proof.
  destruct c as [st fe su rd infl cl]. destruct e; simpl.
  - destruct fe; [|done]. unfold fetchInitialPosts, Legacy.fetchInitialPosts. simpl.
    by destruct (Response.data r), (Response.error r).
  - by destruct su.
  - done.
  - destruct file as [f|]; [|done]. rewrite handleFileChange_some.
    unfold Legacy.handleFileChange. by destruct (startsWith _ _).
  - destruct rd; [done|]. by destruct result.
  - done.
  - unfold onChange. by destruct (truthy_or_null _).
  - unfold handleSubmit, Legacy.handleSubmit. simpl.
    destruct (negb (truthy (trim (message st))) && negb (present (selectedFile st)));
      [done|].
    destruct (MAX_CHARACTERS <? length (message st))%nat; [done|].
    by destruct (selectedFile st).
  - destruct (take_upload infl) as [[m rest]|]; [|done].
    by destruct o as [[d|msg]|].
  - destruct (take_create infl) as [rest|]; [|done]. by destruct o.
Qed.

(** X1. Forgetting the [error] cell turns every run of the page into the
    run of its earlier revision on the same events: the cell was added
    without changing what any handler does to the feed, the draft,
    [isSubmitting], the suspended submissions or the gateway calls. *)
Theorem forget_run (es : list Event) (c : Config) :
  forget_config (run c es) = Legacy.run (forget_config c) es.
Proof.
  revert c. induction es as [|e es IH]; intros c; [done|].
  change (run c (e :: es)) with (run (step c e) es).
  change (Legacy.run (forget_config c) (e :: es))
    with (Legacy.run (Legacy.step (forget_config c) e) es).
  by rewrite IH, forget_step.
Qed.

(** ** Acceptance of a submission *)

Lemma forallb_false_iff (f : N -> bool) (s : jsstring) :
  forallb f s = false <-> exists c, c ∈ s /\ f c = false.
Proof.
  induction s as [|d s IH]; simpl.
  - split; [done|]. intros (c & Hc & _). by apply not_elem_of_nil in Hc.
  - rewrite andb_false_iff, IH. split.
    + intros [Hd | (c & Hc & Hf)]; [exists d|exists c]; split; try done;
        [by left|by right].
    + intros (c & Hc & Hf). apply elem_of_cons in Hc as [-> | Hc]; [by left|].
      right. eauto.
Qed.

Lemma rejected_false_iff (st : State) :
  rejected st = false <->
  ((exists c, c ∈ message st /\ isWhiteSpace c = false) \/ is_Some (selectedFile st))
  /\ (length (message st) <= 280)%nat.
Proof.
  unfold rejected. rewrite orb_false_iff, andb_false_iff, !negb_false_iff, Nat.ltb_ge.
  rewrite <- forallb_false_iff.
  assert (Ht : truthy (trim (message st)) = true <->
               forallb isWhiteSpace (message st) = false).
  { pose proof (trim_falsy_iff (message st)) as H.
    destruct (truthy _), (forallb _ _); intuition congruence. }
  rewrite Ht. unfold MAX_CHARACTERS.
  assert (Hp : present (selectedFile st) = true <-> is_Some (selectedFile st)).
  { destruct (selectedFile st); simpl; split; eauto; try done; by intros [? ?]. }
  rewrite Hp. tauto.
Qed.

(** X2. [handleSubmit] goes on to the gateway exactly when the message has
    a character that is not white space or a file is selected, and the
    message has at most 280 code units; it then sets [isSubmitting], clears
    the error, touches nothing else, and its first call is the upload of
    the selected file, or, without a file, [createPost] with the message
    and no image. A file with an empty message is accepted. *)
Theorem handleSubmit_accepts_iff (st : State) (now : N) :
  (is_Some (handleSubmit now st).2 <->
     ((exists c, c ∈ message st /\ isWhiteSpace c = false) \/ is_Some (selectedFile st))
     /\ (length (message st) <= 280)%nat)
  /\ (forall call k, (handleSubmit now st).2 = Some (call, k) ->
        (handleSubmit now st).1 = setError None (setIsSubmitting true st)
        /\ match selectedFile st with
           | Some f => call = CallUploadImage f (fileName now f)
                       /\ k = AwaitUpload (message st)
           | None => call = CallCreatePost (message st) None /\ k = AwaitCreate
           end).
Proof.
  rewrite <- rejected_false_iff. destruct (rejected st) eqn:Hr.
  - rewrite (handleSubmit_rejected now st Hr). simpl. split.
    + split; [by intros [? ?]|done].
    + done.
  - rewrite (handleSubmit_accepted now st Hr). simpl. split.
    + split; eauto.
    + intros call k [= H]. split; [done|]. by destruct (selectedFile st); simplify_eq.
Qed.

Example image_only_accepted :
  handleSubmit 7 image_only =
    (setIsSubmitting true image_only,
     Some (CallUploadImage photo (js "7-cat.png"), AwaitUpload [])).
Proof. reflexivity. Qed.

(** X3. The Share button and the handler agree: the button is enabled
    exactly when no submission is running and [handleSubmit] would go on to
    the gateway. *)
Theorem button_agrees_with_handler (st : State) (now : N) :
  submit_disabled st = false <->
  isSubmitting st = false /\ is_Some (handleSubmit now st).2.
Proof.
  rewrite submit_disabled_false. destruct (rejected st) eqn:Hr.
  - rewrite (handleSubmit_rejected now st Hr). simpl.
    split; [by intros [_ ?]|]. by intros [_ [? ?]].
  - rewrite (handleSubmit_accepted now st Hr). simpl. split; intros [? _]; eauto.
Qed.

(** X4. The countdown is 280 minus the length of the message; when it is
    negative the Share button is disabled and [handleSubmit] returns
    without a call and without a change, file or not. *)
Theorem negative_countdown_blocks (st : State) (now : N) :
  (remaining st < 0)%Z ->
  (length (message st) > 280)%nat
  /\ submit_disabled st = true
  /\ handleSubmit now st = (st, None).
Proof.
  intros H. assert (Hlen : (280 < length (message st))%nat).
  { unfold remaining, MAX_CHARACTERS in H. lia. }
  split; [lia|]. split; [by apply negative_countdown_disables|].
  apply handleSubmit_rejected. unfold rejected. apply orb_true_iff. right.
  by apply Nat.ltb_lt.
Qed.

Lemma negative_countdown_blocks_witness :
  (length (message too_long) > 280)%nat
  /\ submit_disabled too_long = true
  /\ handleSubmit 7 too_long = (too_long, None).
Proof.
  apply (negative_countdown_blocks too_long 7). vm_compute. reflexivity.
Defined.

(** ** The course of a submission *)

(** X5. The gateway calls of an accepted submission, in order. Without a
    file there is one call, [createPost] with the message and no image.
    With a file the upload comes first; [createPost] follows only when the
    upload returned [{ data }], and it is given the public address that
    the upload returned; when the upload returned [{ error }] or threw,
    [createPost] is not called. *)
Theorem submit_calls (st : State) (now : N) (up : Settled (Result UploadData))
    (cr : Settled (Result (option (list Post.t)))) :
  rejected st = false ->
  (submit now up cr st).2 =
    match selectedFile st with
    | None => [CallCreatePost (message st) None]
    | Some f =>
        match up with
        | Fulfilled (WithData d) =>
            [CallUploadImage f (fileName now f);
             CallCreatePost (message st) (Some (publicURL d))]
        | _ => [CallUploadImage f (fileName now f)]
        end
    end.
Proof.
  intros Hr. unfold submit. rewrite (handleSubmit_accepted now st Hr).
  destruct (selectedFile st) as [f|]; [|done]. by destruct up as [[d|msg]|].
Qed.

Lemma submit_calls_witness :
  (submit 7 (Fulfilled (WithData {| up_path := js "p"; publicURL := js "u" |}))
     (Fulfilled (WithData (Some [post5]))) photo_draft).2 =
    match selectedFile photo_draft with
    | None => [CallCreatePost (message photo_draft) None]
    | Some f =>
        [CallUploadImage f (fileName 7 f);
         CallCreatePost (message photo_draft) (Some (js "u"))]
    end.
Proof.
  apply (submit_calls photo_draft 7
           (Fulfilled (WithData {| up_path := js "p"; publicURL := js "u" |}))
           (Fulfilled (WithData (Some [post5])))).
  reflexivity.
Defined.

(** X6. When every gateway call of an accepted submission succeeds, the
    message is emptied, file and preview are dropped, no error is shown,
    [isSubmitting] is false again, and the feed is as it was: the created
    post is not added locally. *)
Theorem submit_success (st : State) (now : N) (d : UploadData)
    (rows : option (list Post.t)) :
  rejected st = false ->
  let st' := (submit now (Fulfilled (WithData d)) (Fulfilled (WithData rows)) st).1 in
  draft st' = ([], None, None)
  /\ error st' = None
  /\ isSubmitting st' = false
  /\ posts st' = posts st.
Proof.
  intros Hr. unfold submit. rewrite (handleSubmit_accepted now st Hr).
  by destruct (selectedFile st).
Qed.

Lemma submit_success_witness :
  let st' := (submit 7 (Fulfilled (WithData {| up_path := js "p"; publicURL := js "u" |}))
                (Fulfilled (WithData (Some [post5]))) hello_draft).1 in
  draft st' = ([], None, None)
  /\ error st' = None
  /\ isSubmitting st' = false
  /\ posts st' = posts hello_draft.
Proof.
  apply (submit_success hello_draft 7 {| up_path := js "p"; publicURL := js "u" |}
           (Some [post5])).
  reflexivity.
Defined.

(** X7. When a gateway call of an accepted submission throws, the [catch]
    block shows "Failed to create post. Please try again." and the draft is
    kept, whichever call threw: an upload that throws is reported as a
    failure to create the post, and [createPost] is then not called. *)
Theorem submit_thrown (st : State) (now : N) (up : Settled (Result UploadData))
    (cr : Settled (Result (option (list Post.t)))) :
  rejected st = false ->
  (is_Some (selectedFile st) ->
     let r := submit now Rejected cr st in
     error r.1 = Some create_failed /\ draft r.1 = draft st
     /\ isSubmitting r.1 = false /\ forall m u, CallCreatePost m u ∉ r.2)
  /\ (has_error_or_thrown up = false ->
      let r := submit now up Rejected st in
      error r.1 = Some create_failed /\ draft r.1 = draft st
      /\ isSubmitting r.1 = false).
Proof.
  intros Hr. split.
  - intros [f Hf]. unfold submit. rewrite (handleSubmit_accepted now st Hr), Hf.
    simpl. repeat split. intros m u Hin. apply list_elem_of_singleton in Hin.
    discriminate.
  - intros Hup. unfold submit. rewrite (handleSubmit_accepted now st Hr).
    destruct (selectedFile st) as [f|]; [|done].
    by destruct up as [[d|msg]|].
Qed.

Lemma submit_thrown_witness :
  (is_Some (selectedFile photo_draft) ->
     let r := submit 7 Rejected Rejected photo_draft in
     error r.1 = Some create_failed /\ draft r.1 = draft photo_draft
     /\ isSubmitting r.1 = false /\ forall m u, CallCreatePost m u ∉ r.2)
  /\ (@has_error_or_thrown UploadData Rejected = false ->
      let r := submit 7 Rejected Rejected photo_draft in
      error r.1 = Some create_failed /\ draft r.1 = draft photo_draft
      /\ isSubmitting r.1 = false).
Proof. apply (submit_thrown photo_draft 7 Rejected Rejected). reflexivity. Defined.

(** ** The error cell *)

Lemma step_fixed_error (c : Config) (e : Event) :
  fixed_error (error (ui c)) -> fixed_error (error (ui (step c e))).
Proof.
  unfold fixed_error. intros H. destruct c as [st fe su rd infl cl].
  destruct e; simpl in *; try done.
  - destruct fe; [|done]. simpl. unfold fetchInitialPosts.
    destruct (Response.data r), (Response.error r); simpl; tauto.
  - by destruct su.
  - destruct file as [f|]; [|done]. by rewrite handleFileChange_some.
  - destruct rd; [done|]. by destruct result.
  - unfold onChange. destruct (truthy_or_null _); simpl; tauto.
  - unfold handleSubmit. repeat case_match; simpl; tauto.
  - destruct (take_upload infl) as [[m rest]|]; [|done].
    destruct o as [[d|msg]|]; simpl; tauto.
  - destruct (take_create infl) as [rest|]; [|done]. destruct o; simpl; tauto.
Qed.

Lemma run_fixed_error (es : list Event) : forall c,
  fixed_error (error (ui c)) -> fixed_error (error (ui (run c es))).
Proof.
  induction es as [|e es IH]; intros c H; [done|].
  apply (IH (step c e)). by apply step_fixed_error.
Qed.

(** X8. Whatever happens to the page, the error it shows is one of its
    three fixed texts (load, upload, create) or none: a message of the
    Supabase client is never shown. Hence every edit of the message and
    every accepted submission removes the error that is shown. *)
Theorem error_is_fixed_text (es : list Event) :
  let c := run mounted es in
  fixed_error (error (ui c))
  /\ (forall v, error (ui (step c (MessageChanged v))) = None)
  /\ (forall now, is_Some (handleSubmit now (ui c)).2 ->
        error (handleSubmit now (ui c)).1 = None).
Proof.
  intros c. assert (H : fixed_error (error (ui c))).
  { apply run_fixed_error. by left. }
  split; [done|]. split.
  - intros v. simpl. unfold onChange.
    destruct H as [H | [H | [H | H]]]; by rewrite H.
  - intros now. destruct (rejected (ui c)) eqn:Hr.
    + rewrite (handleSubmit_rejected now _ Hr). by intros [? ?].
    + by rewrite (handleSubmit_accepted now _ Hr).
Qed.

(** ** Submissions through the controls *)

Lemma ui_step_closure_current (c : Config) (e : Event) :
  closure_current c -> closure_current (ui_step c e).
Proof.
  unfold closure_current, ui_step. intros Hinv.
  destruct (enabled (ui c) e) eqn:He; [|done].
  destruct c as [st fe su rd infl cl]. destruct e; simpl in *.
  - destruct fe; [|done]. simpl. unfold fetchInitialPosts.
    by destruct (Response.data r), (Response.error r).
  - by destruct su.
  - done.
  - destruct file as [f|]; [|done]. by rewrite handleFileChange_some.
  - destruct rd; [done|]. by destruct result.
  - done.
  - apply negb_true_iff in He.
    assert (Hi : infl = []).
    { destruct infl as [|[m|] [|k' l]]; try done; [destruct Hinv|]; congruence. }
    subst infl. unfold onChange. by destruct (truthy_or_null _).
  - apply negb_true_iff, submit_disabled_false in He as [Hs Hr].
    rewrite (handleSubmit_accepted now _ Hr).
    assert (Hi : infl = []).
    { destruct infl as [|[m|] [|k' l]]; try done; [destruct Hinv|]; congruence. }
    subst infl. by destruct (selectedFile st).
  - destruct infl as [|[m|] [|k' l]]; try done. destruct Hinv as [Hs Hm]. simpl.
    by destruct o as [[d|msg]|].
  - destruct infl as [|[m|] [|k' l]]; try done. simpl. by destruct o.
Qed.

Lemma ui_run_closure_current (es : list Event) : forall c,
  closure_current c -> closure_current (ui_run c es).
Proof.
  induction es as [|e es IH]; intros c H; [done|].
  apply (IH (ui_step c e)). by apply ui_step_closure_current.
Qed.

(** X9. On a page driven through its controls, the message that a
    suspended submission holds in its closure is always the message in the
    textarea (which is disabled meanwhile): when the upload succeeds,
    [createPost] is called with the text the user sees, and the success
    path, which empties the textarea, discards nothing that was typed
    later. *)
Theorem closure_holds_shown_message (es : list Event) :
  let c := ui_run mounted es in
  forall m, AwaitUpload m ∈ inflight c ->
    m = message (ui c)
    /\ forall d, calls (ui_step c (UploadSettled (Fulfilled (WithData d)))) =
                 calls c ++ [CallCreatePost (message (ui c)) (Some (publicURL d))].
Proof.
  intros c m Hin.
  assert (Hinv : closure_current c) by by apply ui_run_closure_current.
  unfold closure_current in Hinv.
  destruct (inflight c) as [|[m'|] [|k' l]] eqn:Hi; try done.
  - by apply not_elem_of_nil in Hin.
  - apply list_elem_of_singleton in Hin as [= ->]. destruct Hinv as [_ ->].
    split; [done|]. intros d. unfold ui_step. simpl. by rewrite Hi.
  - apply list_elem_of_singleton in Hin. discriminate.
Qed.

Lemma closure_holds_shown_message_witness :
  let c := ui_run mounted photo_submitted in
  js "hello" = message (ui c)
  /\ forall d, calls (ui_step c (UploadSettled (Fulfilled (WithData d)))) =
               calls c ++ [CallCreatePost (message (ui c)) (Some (publicURL d))].
Proof.
  apply (closure_holds_shown_message photo_submitted (js "hello")).
  vm_compute. left.
Defined.

(** ** Readers that end late *)

(** X10. A reader is not cancelled when the selection changes. When an
    image is chosen, the selection is then emptied, and the reader ends
    afterwards, the page shows the preview of the image although no file is
    selected; submitting then uploads nothing. *)
Theorem late_reader_sets_preview (c : Config) (f : File.t) (s : jsstring) :
  startsWith (js "image/") (File.type f) = true ->
  isSubmitting (ui c) = false ->
  let c' := ui_run c [FileChanged (Some f); FileChanged None; ReaderLoadEnd (Some s)] in
  selectedFile (ui c') = None
  /\ filePreview (ui c') = Some s
  /\ readers c' = readers c
  /\ forall now call k, (handleSubmit now (ui c')).2 = Some (call, k) ->
       call = CallCreatePost (message (ui c)) None.
Proof.
  intros Hty Hs c'.
  assert (H1 : ui_step c (FileChanged (Some f)) =
               {| ui := setSelectedFile (Some f) (ui c); fetching := fetching c;
                  subscribed := subscribed c; readers := S (readers c);
                  inflight := inflight c; calls := calls c |}).
  { unfold ui_step. cbn [enabled]. rewrite Hs. cbn [negb].
    unfold step. by rewrite handleFileChange_some, Hty. }
  subst c'. unfold ui_run. cbn [foldl]. rewrite H1.
  destruct c as [st fe su rd infl cl]. simpl in Hs.
  unfold ui_step. simpl. rewrite Hs. simpl.
  repeat split. intros now call k. unfold handleSubmit. simpl.
  repeat case_match; intros [= <- <-]; done.
Qed.

Lemma late_reader_sets_preview_witness :
  let c' := ui_run mounted
              [FileChanged (Some photo); FileChanged None; ReaderLoadEnd (Some (js "data:"))] in
  selectedFile (ui c') = None
  /\ filePreview (ui c') = Some (js "data:")
  /\ readers c' = readers mounted
  /\ forall now call k, (handleSubmit now (ui c')).2 = Some (call, k) ->
       call = CallCreatePost (message (ui mounted)) None.
Proof.
  apply (late_reader_sets_preview mounted photo (js "data:")); reflexivity.
Defined.

(** ** Object names *)

(** X11. The object name a submission derives determines both the reading
    of the clock and the name of the file: two submissions get the same
    object name exactly when they read the same time and their files have
    the same name. *)
Theorem object_name_determines (now now' : N) (f f' : File.t) :
  fileName now f = fileName now' f' <-> now = now' /\ File.name f = File.name f'.
Proof.
  split; [apply fileName_inj|]. intros [-> H]. unfold fileName. by rewrite H.
Qed.

(** ** The startup query and the gateway *)

(** X12. The page sends the query of [fetchPosts] itself. On the same
    answer of the post table they agree: when [fetchPosts] returns rows,
    the feed becomes those rows and the error shown is not touched; when
    it returns [{ error }], the page shows its own load-error text, not the
    message in that value, and keeps the feed unless the answer carried
    rows as well. *)
Theorem startup_agrees_with_fetchPosts {B : Type} (db : Postgrest B) (b : B) (c : Config) :
  fetching c = true ->
  let c' := step c (FetchResolved (posts_select_desc b)) in
  match fetchPosts b with
  | Fulfilled (WithData (Some rows)) =>
      posts (ui c') = rows /\ error (ui c') = error (ui c)
  | Fulfilled (WithData None) => ui c' = ui c
  | Fulfilled (WithError m) =>
      error (ui c') = Some load_failed
      /\ posts (ui c') = default (posts (ui c)) (Response.data (posts_select_desc b))
  | Rejected => False
  end.
Proof.
  intros Hf. simpl. rewrite Hf. simpl. unfold fetchPosts, fetchInitialPosts.
  destruct (Response.error (posts_select_desc b)) as [e|].
  - simpl. by destruct (Response.data (posts_select_desc b)).
  - destruct (Response.data (posts_select_desc b)); [done|]. by destruct (ui c).
Qed.

Lemma startup_agrees_with_fetchPosts_witness :
  let c' := step mounted (FetchResolved (@posts_select_desc unit offline tt)) in
  match @fetchPosts unit offline tt with
  | Fulfilled (WithData (Some rows)) =>
      posts (ui c') = rows /\ error (ui c') = error (ui mounted)
  | Fulfilled (WithData None) => ui c' = ui mounted
  | Fulfilled (WithError m) =>
      error (ui c') = Some load_failed
      /\ posts (ui c') =
           default (posts (ui mounted)) (Response.data (@posts_select_desc unit offline tt))
  | Rejected => False
  end.
Proof. apply (startup_agrees_with_fetchPosts offline tt mounted). reflexivity. Defined.

(** ** Uploads on the bucket *)

(** X13. On the bucket, an upload under a free name stores the file under
    that name, changes no other object, and returns the name as [path]
    together with what the client renders as the public address of that
    name. A second submission
    that reads the same time for a file of the same name derives the same
    object name: its upload is refused, the bucket keeps the first file,
    and the page shows the upload error with the draft intact. *)
Theorem upload_then_collide (publicUrl : jsstring -> jsstring)
    (bucket : gmap jsstring File.t)
    (st : State) (now : N) (f g : File.t) (cr : Settled (Result (option (list Post.t)))) :
  selectedFile st = Some g ->
  (length (message st) <= 280)%nat ->
  File.name g = File.name f ->
  bucket !! fileName now f = None ->
  let r1 := @uploadImage _ (bucket_storage publicUrl) f (fileName now f) bucket in
  let r2 := @uploadImage _ (bucket_storage publicUrl) g (fileName now g) r1.2 in
  r1.1 = Fulfilled (WithData
           {| up_path := fileName now f; publicURL := publicUrl (fileName now f) |})
  /\ r1.2 !! fileName now f = Some f
  /\ (forall n, n <> fileName now f -> r1.2 !! n = bucket !! n)
  /\ r2.2 = r1.2
  /\ error (submit now r2.1 cr st).1 = Some upload_failed
  /\ draft (submit now r2.1 cr st).1 = draft st.
Proof.
  intros Hg Hlen Hname Hfree r1 r2.
  assert (Hn : fileName now g = fileName now f) by (unfold fileName; by rewrite Hname).
  assert (H1 : r1 = (Fulfilled (WithData
                        {| up_path := fileName now f;
                           publicURL := publicUrl (fileName now f) |}),
                     <[fileName now f := f]> bucket)).
  { subst r1. unfold uploadImage. simpl. unfold bucket_upload. by rewrite Hfree. }
  assert (H2 : r2 = (Fulfilled (WithError (js "The resource already exists")), r1.2)).
  { subst r2. rewrite Hn, H1. unfold uploadImage. simpl. unfold bucket_upload.
    by rewrite lookup_insert_eq. }
  rewrite H2, H1. simpl. split; [done|]. split; [apply lookup_insert_eq|].
  split; [intros n Hne; by apply lookup_insert_ne|]. split; [done|].
  unfold submit.
  rewrite (handleSubmit_accepted now st (rejected_false_file st g Hg Hlen)), Hg.
  done.
Qed.

Lemma upload_then_collide_witness :
  let r1 := @uploadImage _ (bucket_storage raw_address) photo (fileName 7 photo) ∅ in
  let r2 := @uploadImage _ (bucket_storage raw_address) photo (fileName 7 photo) r1.2 in
  r1.1 = Fulfilled (WithData
           {| up_path := fileName 7 photo; publicURL := raw_address (fileName 7 photo) |})
  /\ r1.2 !! fileName 7 photo = Some photo
  /\ (forall n, n <> fileName 7 photo -> r1.2 !! n = (∅ : gmap jsstring File.t) !! n)
  /\ r2.2 = r1.2
  /\ error (submit 7 r2.1 Rejected photo_draft).1 = Some upload_failed
  /\ draft (submit 7 r2.1 Rejected photo_draft).1 = draft photo_draft.
Proof.
  apply (upload_then_collide raw_address ∅ photo_draft 7 photo photo Rejected).
  - reflexivity.
  - vm_compute. lia.
  - reflexivity.
  - apply lookup_empty.
Defined.

(** ** What the earlier revision did differently *)

(** X14. The Share button of the earlier revision does not look at the
    length of the message: with more than 280 code units that are not all
    white space it is enabled, and pressing it does nothing at all. The
    current button is the earlier one with the length test added. *)
Theorem legacy_button_ignores_length (c : Legacy.Config) (now : N) :
  Legacy.isSubmitting (Legacy.ui c) = false ->
  truthy (trim (Legacy.message (Legacy.ui c))) = true ->
  (280 < length (Legacy.message (Legacy.ui c)))%nat ->
  Legacy.submit_disabled (Legacy.ui c) = false
  /\ Legacy.ui_step c (SubmitTriggered now) = c
  /\ (forall st, submit_disabled st =
                 Legacy.submit_disabled (forget st)
                 || (280 <? length (message st))%nat).
Proof.
  intros Hs Ht Hlen.
  assert (Hd : Legacy.submit_disabled (Legacy.ui c) = false).
  { unfold Legacy.submit_disabled. by rewrite Hs, Ht. }
  split; [done|]. split; [|done].
  unfold Legacy.ui_step. cbn [Legacy.enabled]. rewrite Hd. cbn [negb].
  unfold Legacy.step, Legacy.handleSubmit. rewrite Ht. cbn [negb andb].
  apply Nat.ltb_lt in Hlen. unfold MAX_CHARACTERS. rewrite Hlen.
  by destruct c.
Qed.

Lemma legacy_button_ignores_length_witness :
  Legacy.submit_disabled (Legacy.ui legacy_too_long) = false
  /\ Legacy.ui_step legacy_too_long (SubmitTriggered 7) = legacy_too_long
  /\ (forall st, submit_disabled st =
                 Legacy.submit_disabled (forget st)
                 || (280 <? length (message st))%nat).
Proof.
  apply (legacy_button_ignores_length legacy_too_long 7).
  - reflexivity.
  - reflexivity.
  - vm_compute. lia.
Defined.

(** X15. In the earlier revision a submission that fails leaves no trace:
    when the upload returns [{ error }] or throws, or when [createPost]
    throws, the state after the submission is the state before it. *)
Theorem legacy_failure_leaves_no_trace (st : Legacy.State) (now : N)
    (up : Settled (Result UploadData)) (cr : Settled (Result (option (list Post.t)))) :
  Legacy.isSubmitting st = false ->
  (is_Some (Legacy.selectedFile st) /\ has_error_or_thrown up = true) \/ cr = Rejected ->
  (Legacy.submit now up cr st).1 = st.
Proof.
  intros Hs H. unfold Legacy.submit, Legacy.handleSubmit.
  destruct (negb (truthy (trim (Legacy.message st)))
            && negb (present (Legacy.selectedFile st))); [done|].
  destruct (MAX_CHARACTERS <? length (Legacy.message st))%nat; [done|].
  destruct st as [ps m sub sf fp]. cbn in Hs, H. subst sub.
  destruct H as [[[f ->] Hup] | ->].
  - by destruct up as [[d|msg]|].
  - destruct sf as [f|]; [|done]. by destruct up as [[d|msg]|].
Qed.

Lemma legacy_failure_leaves_no_trace_witness :
  (Legacy.submit 7 Rejected Rejected (Legacy.ui legacy_hello)).1 = Legacy.ui legacy_hello.
Proof.
  apply (legacy_failure_leaves_no_trace (Legacy.ui legacy_hello) 7 Rejected Rejected).
  - reflexivity.
  - right. reflexivity.
Defined.


